(** * Ray_PBT: the trial scheduler and the tuner's mutation

    A shallow embedding of [src/trial_scheduler.py] (the two dispatch
    strategies, [TrialScheduler.assign_trial_to_worker], [run],
    [update_phase], [handle_done_futures]) and of [src/tuner.py]
    ([Tuner.mutation], [record_trial_progress], [get_trial_progress]).

    Python objects are mutable and shared, so both sides are modelled with
    an explicit object store: the scheduler's queues hold references to
    [TrialState] objects, and the tuner's ledger entries hold references to
    [Hyperparameter] objects.  The scheduler reaches the tuner and the
    workers through Ray remote calls only; such a call serialises its
    arguments and its result, so what crosses is a value snapshot.  (The
    objects of the initial population, which [Tuner.__init__] hands both to
    the ledger and to the scheduler, are separate copies here; nothing
    below reads a hyperparameter through the pending queue.)

    The workers, [ray.wait], the resolution of a completion handle and the
    random generator are the environment: a [Cluster] gives their answers
    for one scheduling tick.

    Further code: [generate_all_workers] of [src/worker.py] on the list
    that [ray.nodes()] returned, [Tuner.get_min_iteration_trial] and
    [TrialScheduler.__init__] (the answers to [get_worker_type] are a
    function of the worker; its two debug records are not traced). *)

From Stdlib Require Import ZArith List Bool Floats QArith Qround Lia Sorted Permutation.
From Stdlib Require String Ascii.
Import ListNotations.
Import String.StringSyntax.
Delimit Scope string_scope with string.
Open Scope Z_scope.
#[local] Set Warnings "-inexact-float".

(** ** Python builtins used by the source *)

Module Py.

Section Extremum.
Context {A : Type} (key : A -> Z).

(** [max(l, key=key)]: the scan replaces the running best only on a
    strictly greater key, so the first maximal element wins. *)
Fixpoint max_from (best : A) (l : list A) : A :=
  match l with
  | [] => best
  | x :: l' => max_from (if key best <? key x then x else best) l'
  end.

Definition max (l : list A) : option A :=
  match l with
  | [] => None            (* ValueError: empty sequence *)
  | x :: l' => Some (max_from x l')
  end.

(** [min(l, key=key)]: replaced only on a strictly smaller key. *)
Fixpoint min_from (best : A) (l : list A) : A :=
  match l with
  | [] => best
  | x :: l' => min_from (if key x <? key best then x else best) l'
  end.

Definition min (l : list A) : option A :=
  match l with
  | [] => None            (* ValueError: empty sequence *)
  | x :: l' => Some (min_from x l')
  end.
End Extremum.

(** [l.remove(x)] on a list of object references: drops the first
    occurrence.  (When [x] is absent Python raises ValueError; every call
    in the source removes an element it has just picked from [l].  The
    element picked is the first one of extreme key, so a class that
    compares by value removes the same position.) *)
Fixpoint remove (x : nat) (l : list nat) : list nat :=
  match l with
  | [] => []
  | y :: l' => if Nat.eqb x y then l' else y :: remove x l'
  end.

Section Sorted.
Context {A K : Type} (ltb : K -> K -> bool) (key : A -> K).

(** [sorted(l, key=key)] is stable: an element goes after those already
    placed whose key is not greater than its own. *)
Fixpoint insert (x : A) (l : list A) : list A :=
  match l with
  | [] => [x]
  | y :: l' => if ltb (key x) (key y) then x :: y :: l' else y :: insert x l'
  end.

Definition sorted (l : list A) : list A :=
  fold_left (fun acc x => insert x acc) l [].
End Sorted.

(** Truthiness of an [int]. *)
Definition truthy (n : Z) : bool := negb (n =? 0).

(** [seq[i:]] and [seq[:i]] for [0 <= i]. *)
Definition slice_from {A} (i : Z) (l : list A) : list A := skipn (Z.to_nat i) l.
Definition slice_to {A} (i : Z) (l : list A) : list A := firstn (Z.to_nat i) l.

Definition len {A} (l : list A) : Z := Z.of_nat (length l).

Inductive Exception : Type :=
| IndexError            (* random.choice on an empty sequence *)
| RayTaskError (code : nat).   (* a remote task that failed *)

Inductive Result (A : Type) : Type :=
| Ok (a : A)
| Raised (e : Exception).
Arguments Ok {A} a.
Arguments Raised {A} e.

(** [random.choice(seq)] is [seq[randbelow(len(seq))]]; [draw] is what the
    generator yields, reduced into range. *)
Definition random_choice {A} (draw : nat) (l : list A) : Result A :=
  match nth_error l (draw mod length l)%nat with
  | Some x => Ok x
  | None => Raised IndexError
  end.

End Py.

(** ** Data model *)

Inductive TrialStatus : Type :=
| PENDING | RUNNING | PAUSE | NEED_MUTATION | TERMINATE.

Inductive WorkerType : Type := CPU | GPU.

(** Enumeration of [utils] kept as an opaque tag. *)
Definition ModelType := nat.
(** An opaque, copyable handle to a saved model state. *)
Definition Checkpoint := nat.
(** Address of an object in a process' store. *)
Definition loc := nat.
Definition ActorHandle := nat.
Definition ObjectRef := nat.

Record Hyperparameter : Type := mkHyperparameter {
  lr : float;
  momentum : float;
  batch_size : Z;
  model_type : ModelType
}.

(** [TrialState], parametric in how the hyperparameter is held: by
    reference ([TrialState loc], an object of the tuner's store) or by
    value ([TrialState Hyperparameter], a serialised snapshot). *)
Record TrialState (H : Type) : Type := mkTrialState {
  id : Z;
  hyperparameter : H;
  checkpoint : option Checkpoint;
  iteration : Z;
  stop_iteration : Z;
  phase : Z;
  accuracy : float;
  status : TrialStatus;
  worker_id : Z;
  worker_type : option WorkerType;
  device_iteration_count : Z * Z       (* {CPU: _, GPU: _} *)
}.
Arguments mkTrialState {H}.
Arguments id {H}.
Arguments hyperparameter {H}.
Arguments checkpoint {H}.
Arguments iteration {H}.
Arguments stop_iteration {H}.
Arguments phase {H}.
Arguments accuracy {H}.
Arguments status {H}.
Arguments worker_id {H}.
Arguments worker_type {H}.
Arguments device_iteration_count {H}.

Definition Snapshot := TrialState Hyperparameter.

Section FieldWrites.
Context {H : Type}.

Definition set_hyperparameter {H'} (h : H') (t : TrialState H) : TrialState H' :=
  mkTrialState (id t) h (checkpoint t) (iteration t) (stop_iteration t)
    (phase t) (accuracy t) (status t) (worker_id t) (worker_type t)
    (device_iteration_count t).

Definition set_checkpoint (c : option Checkpoint) (t : TrialState H) : TrialState H :=
  mkTrialState (id t) (hyperparameter t) c (iteration t) (stop_iteration t)
    (phase t) (accuracy t) (status t) (worker_id t) (worker_type t)
    (device_iteration_count t).

Definition set_status (s : TrialStatus) (t : TrialState H) : TrialState H :=
  mkTrialState (id t) (hyperparameter t) (checkpoint t) (iteration t)
    (stop_iteration t) (phase t) (accuracy t) s (worker_id t) (worker_type t)
    (device_iteration_count t).

Definition set_worker_id (w : Z) (t : TrialState H) : TrialState H :=
  mkTrialState (id t) (hyperparameter t) (checkpoint t) (iteration t)
    (stop_iteration t) (phase t) (accuracy t) (status t) w (worker_type t)
    (device_iteration_count t).

Definition set_worker_type (w : option WorkerType) (t : TrialState H) : TrialState H :=
  mkTrialState (id t) (hyperparameter t) (checkpoint t) (iteration t)
    (stop_iteration t) (phase t) (accuracy t) (status t) (worker_id t) w
    (device_iteration_count t).
End FieldWrites.

(** ** Object stores *)

Module Store.
Section Store.
Context {A : Type}.

Definition alloc (v : A) (h : list A) : loc * list A := (length h, h ++ [v]).

Definition read (d : A) (h : list A) (l : loc) : A := nth l h d.

Fixpoint write (l : loc) (v : A) (h : list A) : list A :=
  match h, l with
  | [], _ => []
  | _ :: h', O => v :: h'
  | x :: h', S l' => x :: write l' v h'
  end.
End Store.
End Store.

(** ** TrialPhase *)

Module TrialPhase.

Record t : Type := mk {
  stop_iteration : Z;
  phase_iteration : Z;
  current_phase : Z
}.

(** Modelled from the spec: [TrialPhase.update_phase] ([trial_phase.py] is
    not among the sources).  "Given the population's minimum iteration m,
    current_phase = floor(m / phase_iteration) capped at
    floor(stop_iteration / phase_iteration)"; it never decreases, and an
    empty input changes nothing.  [phase_iteration] is the positive
    constant PHASE_ITERATION of the configuration. *)
Definition update_phase (iterations : list Z) (p : t) : t :=
  match iterations with
  | [] => p
  | i :: rest =>
      let m := fold_right Z.min i rest in
      let target := Z.min (m / phase_iteration p)
                          (stop_iteration p / phase_iteration p) in
      mk (stop_iteration p) (phase_iteration p) (Z.max (current_phase p) target)
  end.

End TrialPhase.

(** ** TrialResult: the tuner's ledger *)

Module TrialResult.

(** The ledger is a Python dict from trial id to the latest [TrialState]
    object; a dict keeps insertion order, which [sorted] (stable) exposes,
    so it is an association list here.  The entries refer to their
    hyperparameter objects by address. *)
Record t : Type := mk {
  trial_progress : list (Z * TrialState loc)
}.

Fixpoint dict_set {V} (k : Z) (v : V) (d : list (Z * V)) : list (Z * V) :=
  match d with
  | [] => [(k, v)]
  | (k', v') :: d' => if k =? k' then (k, v) :: d' else (k', v') :: dict_set k v d'
  end.

Fixpoint dict_get {V} (k : Z) (d : list (Z * V)) : option V :=
  match d with
  | [] => None
  | (k', v') :: d' => if k =? k' then Some v' else dict_get k d'
  end.

(** Modelled from the spec: [TrialResult.record_trial_progress]
    ([trial_state.py] is not among the sources): "writes ts into the ledger
    keyed by id". *)
Definition record_trial_progress (ts : TrialState loc) (r : t) : t :=
  mk (dict_set (id ts) ts (trial_progress r)).

(** Modelled from the spec: [TrialResult.get_trial_progress]: "returns a
    snapshot sequence of all current ledger values". *)
Definition get_trial_progress (r : t) : list (TrialState loc) :=
  map snd (trial_progress r).

(** Modelled from the spec: [TrialResult.get_quantile]: "let N =
    population size and k = floor(N*ratio).  Sort ledger values by accuracy
    ascending.  Return (values[:k], values[N-k:]).  If k == 0, lower is
    empty and upper is the whole list."  The lists hold the ledger's own
    entries. *)
Definition get_quantile (ratio : Q) (r : t)
  : list (TrialState loc) * list (TrialState loc) :=
  let values := Py.sorted PrimFloat.ltb accuracy (get_trial_progress r) in
  let N := Py.len values in
  let k := Qfloor (inject_Z N * ratio) in
  (Py.slice_to k values,
   if k =? 0 then values else Py.slice_from (N - k) values).

End TrialResult.

(** ** Tuner *)

Inductive TunerLog : Type :=
| MutationBegins (trial : Z) (original : Hyperparameter)
| MutationEnds (trial : Z) (iter : Z) (mutated : Hyperparameter)
| DisplayTrialProgress.

(** The part of the [Tuner] actor's state that the scheduler talks to:
    the ledger, the store of the hyperparameter objects its entries refer
    to, and what it has logged. *)
Record Tuner : Type := mkTuner {
  trial_result : TrialResult.t;
  hyperparameters : list Hyperparameter;
  tuner_log : list TunerLog
}.

Definition no_hyperparameter : Hyperparameter :=
  mkHyperparameter 0%float 0%float 0 O.

Definition hp_at (t : Tuner) (l : loc) : Hyperparameter :=
  Store.read no_hyperparameter (hyperparameters t) l.

Definition tuner_info (e : TunerLog) (t : Tuner) : Tuner :=
  mkTuner (trial_result t) (hyperparameters t) (tuner_log t ++ [e]).

Definition hp_write (l : loc) (h : Hyperparameter) (t : Tuner) : Tuner :=
  mkTuner (trial_result t) (Store.write l h (hyperparameters t)) (tuner_log t).

Definition set_lr (x : float) (h : Hyperparameter) : Hyperparameter :=
  mkHyperparameter x (momentum h) (batch_size h) (model_type h).

Definition set_momentum (x : float) (h : Hyperparameter) : Hyperparameter :=
  mkHyperparameter (lr h) x (batch_size h) (model_type h).

(** [Tuner.get_quantile_trial], with its default ratio 0.25. *)
Definition get_quantile_trial (t : Tuner)
  : list (TrialState loc) * list (TrialState loc) :=
  TrialResult.get_quantile (1 # 4)%Q (trial_result t).

(** [Tuner.mutation] (tuner.py, 100-124).  [hyperparameter] is the donor's
    own object: the two in-place products write through the reference. *)
Definition mutation (draw : nat) (trial_state : TrialState loc) (t : Tuner)
  : Py.Result (TrialState loc) * Tuner :=
  let t := tuner_info
             (MutationBegins (id trial_state) (hp_at t (hyperparameter trial_state))) t in
  let '(lower_quantile, upper_quantile) := get_quantile_trial t in
  match Py.random_choice draw upper_quantile with
  | Py.Raised e => (Py.Raised e, t)
  | Py.Ok chose_trial =>
      let hyperparameter_ := hyperparameter chose_trial in
      let t := hp_write hyperparameter_
                 (set_lr (PrimFloat.mul (lr (hp_at t hyperparameter_)) 0.8%float)
                         (hp_at t hyperparameter_)) t in
      let t := hp_write hyperparameter_
                 (set_momentum (PrimFloat.mul (momentum (hp_at t hyperparameter_)) 1.2%float)
                               (hp_at t hyperparameter_)) t in
      let trial_state := set_hyperparameter hyperparameter_ trial_state in
      let trial_state := set_checkpoint (checkpoint chose_trial) trial_state in
      let t := tuner_info
                 (MutationEnds (id trial_state) (iteration trial_state)
                    (hp_at t (hyperparameter trial_state))) t in
      (Py.Ok trial_state, t)
  end.

(** [Tuner.record_trial_progress] (tuner.py, 96-98). *)
Definition record_trial_progress (trial_state : TrialState loc) (t : Tuner) : Tuner :=
  let t := mkTuner (TrialResult.record_trial_progress trial_state (trial_result t))
                   (hyperparameters t) (tuner_log t) in
  tuner_info DisplayTrialProgress t.

(** [Tuner.get_trial_progress] (tuner.py, 135-136). *)
Definition get_trial_progress (t : Tuner) : list (TrialState loc) :=
  TrialResult.get_trial_progress (trial_result t).

(** *** The actor boundary

    An argument of a remote call arrives as a fresh copy (its
    hyperparameter becomes a new object of the tuner's store) and a result
    leaves as a value. *)
Definition deserialize (s : Snapshot) (t : Tuner) : TrialState loc * Tuner :=
  let '(l, h) := Store.alloc (hyperparameter s) (hyperparameters t) in
  (set_hyperparameter l s, mkTuner (trial_result t) h (tuner_log t)).

Definition serialize (t : Tuner) (o : TrialState loc) : Snapshot :=
  set_hyperparameter (hp_at t (hyperparameter o)) o.

Definition remote_mutation (draw : nat) (s : Snapshot) (t : Tuner)
  : Py.Result Snapshot * Tuner :=
  let '(o, t) := deserialize s t in
  match mutation draw o t with
  | (Py.Ok o', t') => (Py.Ok (serialize t' o'), t')
  | (Py.Raised e, t') => (Py.Raised e, t')
  end.

Definition remote_record_trial_progress (s : Snapshot) (t : Tuner) : Tuner :=
  let '(o, t) := deserialize s t in
  record_trial_progress o t.

Definition remote_get_trial_progress (t : Tuner) : list Snapshot :=
  map (serialize t) (get_trial_progress t).

(** What the ledger says about trial [i], read through the store. *)
Definition ledger_entry (t : Tuner) (i : Z) : option Snapshot :=
  option_map (serialize t) (TrialResult.dict_get i (TrialResult.trial_progress (trial_result t))).

(** ** The scheduler's world *)

Inductive Level : Type := DEBUG | INFO | WARNING | ERROR.

(** The log records of trial_scheduler.py, by content. *)
Inductive Message : Type :=
| MsgTrainingStarts
| MsgPendingList (n : Z) (ids : list Z)
| MsgPreempt (trial : Z)
| MsgPhaseUpdated (p : Z)
| MsgTrialDone (worker trial : Z) (acc : float)
| MsgCompletedList (ids : list Z)
| MsgTrialReturned (worker trial iter : Z) (acc : float)
| MsgCollision (trial : Z)
| MsgFutureFailed (e : Py.Exception)
| MsgAllTrialsDone.

(** What the scheduler does to the outside: remote calls on workers and on
    the tuner, log records, and the final report. *)
Inductive Event : Type :=
| GetAvailableSlots (w : ActorHandle)
| GetActiveTrials (w : ActorHandle)
| AssignTrial (w : ActorHandle) (ts : Snapshot) (future : ObjectRef)
| SendSignal (w : ActorHandle) (trial : Z)
| UpdatePhase (w : ActorHandle) (p : Z)
| GetTrialProgress
| Mutation (ts : Snapshot)
| RecordTrialProgress (ts : Snapshot)
| Log (l : Level) (m : Message)
| PrintIterationCount (counts : list (Z * (Z * Z))).

(** The state of a [TrialScheduler] together with what it can reach: the
    tuner actor behind [self.tuner], the store of the [TrialState] objects
    its queues refer to, the supply of fresh completion handles, and the
    trace of its effects. *)
Record TrialScheduler : Type := mkScheduler {
  tuner : Tuner;
  trial_phase : TrialPhase.t;
  pending_trial_states : list loc;
  completed_trial_states : list loc;
  waiting_trial_states : list loc;
  trial_state_nums : Z;
  running_futures : list ObjectRef;
  workers : list ActorHandle;
  gpu_workers : list ActorHandle;
  cpu_workers : list ActorHandle;
  objects : list Snapshot;
  next_ref : ObjectRef;
  events : list Event
}.

Definition set_tuner (x : Tuner) (s : TrialScheduler) : TrialScheduler :=
  mkScheduler x (trial_phase s) (pending_trial_states s) (completed_trial_states s)
    (waiting_trial_states s) (trial_state_nums s) (running_futures s) (workers s)
    (gpu_workers s) (cpu_workers s) (objects s) (next_ref s) (events s).

Definition set_trial_phase (x : TrialPhase.t) (s : TrialScheduler) : TrialScheduler :=
  mkScheduler (tuner s) x (pending_trial_states s) (completed_trial_states s)
    (waiting_trial_states s) (trial_state_nums s) (running_futures s) (workers s)
    (gpu_workers s) (cpu_workers s) (objects s) (next_ref s) (events s).

Definition set_pending (x : list loc) (s : TrialScheduler) : TrialScheduler :=
  mkScheduler (tuner s) (trial_phase s) x (completed_trial_states s)
    (waiting_trial_states s) (trial_state_nums s) (running_futures s) (workers s)
    (gpu_workers s) (cpu_workers s) (objects s) (next_ref s) (events s).

Definition set_completed (x : list loc) (s : TrialScheduler) : TrialScheduler :=
  mkScheduler (tuner s) (trial_phase s) (pending_trial_states s) x
    (waiting_trial_states s) (trial_state_nums s) (running_futures s) (workers s)
    (gpu_workers s) (cpu_workers s) (objects s) (next_ref s) (events s).

Definition set_running (x : list ObjectRef) (s : TrialScheduler) : TrialScheduler :=
  mkScheduler (tuner s) (trial_phase s) (pending_trial_states s)
    (completed_trial_states s) (waiting_trial_states s) (trial_state_nums s) x
    (workers s) (gpu_workers s) (cpu_workers s) (objects s) (next_ref s) (events s).

Definition set_objects (x : list Snapshot) (s : TrialScheduler) : TrialScheduler :=
  mkScheduler (tuner s) (trial_phase s) (pending_trial_states s)
    (completed_trial_states s) (waiting_trial_states s) (trial_state_nums s)
    (running_futures s) (workers s) (gpu_workers s) (cpu_workers s) x (next_ref s)
    (events s).

Definition set_next_ref (x : ObjectRef) (s : TrialScheduler) : TrialScheduler :=
  mkScheduler (tuner s) (trial_phase s) (pending_trial_states s)
    (completed_trial_states s) (waiting_trial_states s) (trial_state_nums s)
    (running_futures s) (workers s) (gpu_workers s) (cpu_workers s) (objects s) x
    (events s).

Definition set_events (x : list Event) (s : TrialScheduler) : TrialScheduler :=
  mkScheduler (tuner s) (trial_phase s) (pending_trial_states s)
    (completed_trial_states s) (waiting_trial_states s) (trial_state_nums s)
    (running_futures s) (workers s) (gpu_workers s) (cpu_workers s) (objects s)
    (next_ref s) x.

(** The rest of the cluster as one scheduling tick sees it: what each
    worker answers, which running handle [ray.wait] reports, what a handle
    resolves to, and what the tuner's random generator yields.

    Only [resolve], the [ray.get] of line 361, sits inside a [try] and may
    raise here.  The other remote calls ([ray.get] at lines 44, 72, 97,
    117, 124, 341 and 349, [ray.wait] at line 279) are outside any [try]:
    an exception from one of them would propagate out of [run].  A
    [Cluster] has an answer for each of them, so the ticks modelled are
    those in which these calls return. *)
Record Cluster : Type := mkCluster {
  available_slots : ActorHandle -> Z;
  active_trials : ActorHandle -> list Snapshot;
  ready : option nat;
  resolve : ObjectRef -> Py.Result Snapshot;
  draw : nat
}.

(** *** A state monad over the scheduler's world *)

Definition M (A : Type) : Type := TrialScheduler -> A * TrialScheduler.

Definition ret {A} (a : A) : M A := fun s => (a, s).

Definition bind {A B} (m : M A) (k : A -> M B) : M B :=
  fun s => let r := m s in k (fst r) (snd r).

Notation "x <- c ;; k" := (bind c (fun x => k))
  (at level 61, c at next level, right associativity).
Notation "c ;; k" := (bind c (fun _ => k))
  (at level 61, right associativity).

Definition gets {A} (f : TrialScheduler -> A) : M A := fun s => (f s, s).

Definition modify (f : TrialScheduler -> TrialScheduler) : M unit :=
  fun s => (tt, f s).

Fixpoint for_each {A B} (f : A -> M B) (l : list A) : M (list B) :=
  match l with
  | [] => ret []
  | x :: l' => y <- f x ;; ys <- for_each f l' ;; ret (y :: ys)
  end.

(** The trace grows by [l]. *)
Definition trace (l : list Event) (s : TrialScheduler) : TrialScheduler :=
  set_events (events s ++ l) s.

Definition emit (e : Event) : M unit := modify (trace [e]).

Definition no_trial : Snapshot :=
  mkTrialState 0 no_hyperparameter None 0 0 0 0%float PENDING (-1) None (0, 0).

(** The object behind a reference. *)
Definition obj (s : TrialScheduler) (l : loc) : Snapshot :=
  Store.read no_trial (objects s) l.

Definition new_object (v : Snapshot) : M loc :=
  fun s => let r := Store.alloc v (objects s) in (fst r, set_objects (snd r) s).

Definition update_object (l : loc) (f : Snapshot -> Snapshot) : M unit :=
  modify (fun s => set_objects (Store.write l (f (obj s l)) (objects s)) s).

(** *** Remote calls *)

Definition get_available_slots (env : Cluster) (w : ActorHandle) : M Z :=
  emit (GetAvailableSlots w) ;; ret (available_slots env w).

Definition get_active_trials (env : Cluster) (w : ActorHandle) : M (list Snapshot) :=
  emit (GetActiveTrials w) ;; ret (active_trials env w).

(** [worker.assign_trial.remote(trial_state)]: the argument is serialised
    at the call and a fresh completion handle comes back at once. *)
Definition assign_trial (w : ActorHandle) (trial_state : loc) : M ObjectRef :=
  future <- gets next_ref ;;
  ts <- gets (fun s => obj s trial_state) ;;
  emit (AssignTrial w ts future) ;;
  modify (set_next_ref (S future)) ;;
  ret future.

Definition send_signal (w : ActorHandle) (trial : Z) : M unit :=
  emit (SendSignal w trial).

(** ** The dispatch strategies *)

(** The workers that answered a truthy slot count, with that count. *)
Definition with_free_slot (ws : list ActorHandle) (slots : list Z)
  : list (ActorHandle * Z) :=
  filter (fun p => Py.truthy (snd p)) (combine ws slots).

(** Lines 77-83 of [round_robin_strategy] and 105-111 of
    [gpu_first_strategy], the same five statements: the worker with the
    most free slots takes the pending trial with the least iteration. *)
Definition assign_to_gpu (available_gpu_workers : list (ActorHandle * Z))
  : M (option ObjectRef) :=
  s <- gets (fun s => s) ;;
  match Py.max snd available_gpu_workers,
        Py.min (fun l => iteration (obj s l)) (pending_trial_states s) with
  | Some worker, Some trial_state =>
      modify (fun s => set_pending (Py.remove trial_state (pending_trial_states s)) s) ;;
      future <- assign_trial (fst worker) trial_state ;;
      ret (Some future)
  | _, _ => ret None     (* max, min of an empty list: excluded by the callers' guards *)
  end.

(** [round_robin_strategy] (trial_scheduler.py, 29-83). *)
Definition round_robin_strategy (env : Cluster)
    (gpu_workers cpu_workers : list ActorHandle) (trial_phase : TrialPhase.t)
  : M (option ObjectRef) :=
  pending <- gets pending_trial_states ;;
  match pending with
  | [] => ret None
  | _ :: _ =>
      (* Assign to CPU *)
      slots <- for_each (get_available_slots env) cpu_workers ;;
      let available_cpu_workers := map fst (with_free_slot cpu_workers slots) in
      on_cpu <-
        match available_cpu_workers with
        | [] => ret None
        | worker :: _ =>
            s <- gets (fun s => s) ;;
            let available_trials :=
              filter (fun l => phase (obj s l) <=? TrialPhase.current_phase trial_phase)
                     pending in
            match Py.max (fun l => iteration (obj s l)) available_trials with
            | None => ret None
            | Some trial_state =>
                modify (fun s => set_pending
                                   (Py.remove trial_state (pending_trial_states s)) s) ;;
                future <- assign_trial worker trial_state ;;
                ret (Some future)
            end
        end ;;
      match on_cpu with
      | Some future => ret (Some future)
      | None =>
          (* Assign to GPU *)
          slots <- for_each (get_available_slots env) gpu_workers ;;
          let available_gpu_workers := with_free_slot gpu_workers slots in
          match available_gpu_workers with
          | [] => ret None
          | _ :: _ => assign_to_gpu available_gpu_workers
          end
      end
  end.

(** The comprehension of lines 115-119: each CPU worker that runs
    something, with its least advanced trial. *)
Definition running_cpu (cpu_workers : list ActorHandle) (actives : list (list Snapshot))
  : list (ActorHandle * Snapshot) :=
  flat_map (fun p =>
              if 0 <? Py.len (snd p) then
                match Py.min iteration (snd p) with
                | Some t => [(fst p, t)]
                | None => []
                end
              else [])
           (combine cpu_workers actives).

(** [gpu_first_strategy] (trial_scheduler.py, 86-124). *)
Definition gpu_first_strategy (env : Cluster)
    (gpu_workers cpu_workers : list ActorHandle)
  : M (option ObjectRef) :=
  slots <- for_each (get_available_slots env) gpu_workers ;;
  let available_gpu_workers := with_free_slot gpu_workers slots in
  match available_gpu_workers with
  | [] => ret None
  | _ :: _ =>
      pending <- gets pending_trial_states ;;
      if Py.truthy (Py.len pending) then assign_to_gpu available_gpu_workers
      else
        actives <- for_each (get_active_trials env) cpu_workers ;;
        let running_cpu_workers := running_cpu cpu_workers actives in
        match Py.min (fun p => iteration (snd p)) running_cpu_workers with
        | None => ret None
        | Some victim =>
            emit (Log INFO (MsgPreempt (id (snd victim)))) ;;
            send_signal (fst victim) (id (snd victim)) ;;
            ret None
        end
  end.

(** ** TrialScheduler *)

(** [TrialScheduler.update_phase] (trial_scheduler.py, 338-349). *)
Definition update_phase : M unit :=
  old <- gets (fun s => TrialPhase.current_phase (trial_phase s)) ;;
  emit GetTrialProgress ;;
  progress <- gets (fun s => remote_get_trial_progress (tuner s)) ;;
  modify (fun s => set_trial_phase
                     (TrialPhase.update_phase (map iteration progress) (trial_phase s)) s) ;;
  new <- gets (fun s => TrialPhase.current_phase (trial_phase s)) ;;
  if old =? new then ret tt
  else
    emit (Log INFO (MsgPhaseUpdated new)) ;;
    ws <- gets workers ;;
    for_each (fun w => emit (UpdatePhase w new)) ws ;;
    ret tt.

Inductive Strategy : Type := RoundRobin | GpuFirst.

(** The test of lines 241-244. *)
Definition selected_strategy (s : TrialScheduler) : Strategy :=
  if Py.len (completed_trial_states s)
     <=? trial_state_nums s - Py.len (gpu_workers s) * 3
  then RoundRobin else GpuFirst.

(** Lines 231-238: the pending queue, sorted by iteration, goes to the log. *)
Definition log_pending : M unit :=
  s <- gets (fun s => s) ;;
  match pending_trial_states s with
  | [] => ret tt
  | _ :: _ =>
      let pending_trial_list :=
        Py.sorted Z.ltb (fun l => iteration (obj s l)) (pending_trial_states s) in
      emit (Log INFO (MsgPendingList (Py.len pending_trial_list)
                        (map (fun l => id (obj s l)) pending_trial_list)))
  end.

(** Lines 259-260. *)
Definition keep (future : option ObjectRef) : M unit :=
  match future with
  | Some f => modify (fun s => set_running (running_futures s ++ [f]) s)
  | None => ret tt
  end.

(** [TrialScheduler.assign_trial_to_worker] (trial_scheduler.py, 220-260).
    [future] starts as [None] and only the round-robin branch binds it:
    what [gpu_first_strategy] returns is not kept. *)
Definition assign_trial_to_worker (env : Cluster) : M unit :=
  update_phase ;;
  log_pending ;;
  s <- gets (fun s => s) ;;
  future <-
    match selected_strategy s with
    | RoundRobin =>
        round_robin_strategy env (gpu_workers s) (cpu_workers s) (trial_phase s)
    | GpuFirst =>
        gpu_first_strategy env (gpu_workers s) (cpu_workers s) ;;
        ret None
    end ;;
  keep future.

Definition tuner_call {A} (f : Tuner -> A * Tuner) : M A :=
  fun s => let r := f (tuner s) in (fst r, set_tuner (snd r) s).

Definition append_completed (l : loc) : M unit :=
  modify (fun s => set_completed (completed_trial_states s ++ [l]) s).

Definition append_pending (l : loc) : M unit :=
  modify (fun s => set_pending (pending_trial_states s ++ [l]) s).

(** The [if]/[elif] chain of lines 362-385.  The result is the object the
    variable [trial_state] names afterwards, or the exception raised. *)
Definition route (env : Cluster) (trial_state : loc) : M (Py.Result loc) :=
  st <- gets (fun s => status (obj s trial_state)) ;;
  match st with
  | TERMINATE =>
      append_completed trial_state ;;
      s <- gets (fun s => s) ;;
      emit (Log INFO (MsgTrialDone (worker_id (obj s trial_state))
                        (id (obj s trial_state)) (accuracy (obj s trial_state)))) ;;
      emit (Log INFO (MsgCompletedList
                        (Py.sorted Z.ltb (fun i => i)
                           (map (fun l => id (obj s l)) (completed_trial_states s))))) ;;
      ret (Py.Ok trial_state)
  | NEED_MUTATION =>
      arg <- gets (fun s => obj s trial_state) ;;
      emit (Mutation arg) ;;
      r <- tuner_call (remote_mutation (draw env) arg) ;;
      match r with
      | Py.Raised e => ret (Py.Raised e)
      | Py.Ok mutated =>
          trial_state <- new_object mutated ;;
          update_object trial_state (set_status PENDING) ;;
          append_pending trial_state ;;
          ret (Py.Ok trial_state)
      end
  | PAUSE =>
      update_object trial_state (set_status PENDING) ;;
      append_pending trial_state ;;
      s <- gets (fun s => s) ;;
      emit (Log INFO (MsgTrialReturned (worker_id (obj s trial_state))
                        (id (obj s trial_state)) (iteration (obj s trial_state))
                        (accuracy (obj s trial_state)))) ;;
      ret (Py.Ok trial_state)
  | PENDING =>
      append_pending trial_state ;;
      s <- gets (fun s => s) ;;
      emit (Log WARNING (MsgCollision (id (obj s trial_state)))) ;;
      ret (Py.Ok trial_state)
  | RUNNING => ret (Py.Ok trial_state)
  end.

(** The body of the [try] of lines 361-389. *)
Definition handle_done_try (env : Cluster) (future : ObjectRef) : M (Py.Result unit) :=
  match resolve env future with
  | Py.Raised e => ret (Py.Raised e)
  | Py.Ok v =>
      trial_state <- new_object v ;;
      routed <- route env trial_state ;;
      match routed with
      | Py.Raised e => ret (Py.Raised e)
      | Py.Ok trial_state =>
          update_object trial_state (set_worker_id (-1)) ;;
          update_object trial_state (set_worker_type None) ;;
          snapshot <- gets (fun s => obj s trial_state) ;;
          emit (RecordTrialProgress snapshot) ;;
          tuner_call (fun t => (tt, remote_record_trial_progress snapshot t)) ;;
          ret (Py.Ok tt)
      end
  end.

(** One turn of the loop of [handle_done_futures]: the [try] and its
    [except Exception]. *)
Definition handle_done_future (env : Cluster) (future : ObjectRef) : M unit :=
  r <- handle_done_try env future ;;
  match r with
  | Py.Ok _ => ret tt
  | Py.Raised e => emit (Log ERROR (MsgFutureFailed e))
  end.

(** [TrialScheduler.handle_done_futures] (trial_scheduler.py, 351-391). *)
Definition handle_done_futures (env : Cluster) (done_futures : list ObjectRef) : M unit :=
  for_each (handle_done_future env) done_futures ;; ret tt.

(** [ray.wait(refs, timeout=0.5)]: [num_returns] is left at 1, so at most
    one ready handle comes back, the others stay in order. *)
Definition ray_wait (env : Cluster) (refs : list ObjectRef)
  : list ObjectRef * list ObjectRef :=
  match ready env with
  | None => ([], refs)
  | Some i =>
      match nth_error refs i with
      | Some f => ([f], firstn i refs ++ skipn (S i) refs)
      | None => ([], refs)
      end
  end.

(** [TrialScheduler.print_iteration_count] (trial_scheduler.py, 289-313). *)
Definition print_iteration_count : M unit :=
  s <- gets (fun s => s) ;;
  let iteration_counts :=
    map (fun l => (id (obj s l), device_iteration_count (obj s l)))
        (completed_trial_states s) in
  emit (PrintIterationCount (Py.sorted Z.ltb fst iteration_counts)).

Definition is_empty {A} (l : list A) : bool :=
  match l with [] => true | _ :: _ => false end.

(** How the [while] of [run] was left; [Unfinished] when the ticks given
    ran out first.  These are the exits of a loop whose remote calls
    return (see [Cluster]); leaving [run] by an exception of a call
    outside the [try] is not among them. *)
Inductive LoopExit : Type := ConditionFalse | Break | Unfinished.

(** One pass through the body of the [while] (lines 274-284); [true] when
    the pass ends in [break]. *)
Definition tick (env : Cluster) : M bool :=
  assign_trial_to_worker env ;;
  s <- gets (fun s => s) ;;
  if is_empty (running_futures s) && is_empty (pending_trial_states s) then ret true
  else
    let w := ray_wait env (running_futures s) in
    modify (set_running (snd w)) ;;
    match fst w with
    | [] => ret tt
    | _ :: _ => handle_done_futures env (fst w)
    end ;;
    ret false.

(** The [while] of [run] (line 273), one [Cluster] per tick. *)
Fixpoint run_loop (envs : list Cluster) : M LoopExit :=
  s <- gets (fun s => s) ;;
  if Py.len (completed_trial_states s) <? trial_state_nums s then
    match envs with
    | [] => ret Unfinished
    | env :: envs' =>
        broke <- tick env ;;
        if (broke : bool) then ret Break else run_loop envs'
    end
  else ret ConditionFalse.

(** [TrialScheduler.run] (trial_scheduler.py, 262-287): [Some tt] when the
    call returns, [None] while the loop is still turning. *)
Definition run (envs : list Cluster) : M (option unit) :=
  emit (Log INFO MsgTrainingStarts) ;;
  exit <- run_loop envs ;;
  match exit with
  | Unfinished => ret None
  | ConditionFalse | Break =>
      print_iteration_count ;;
      emit (Log INFO MsgAllTrialsDone) ;;
      ret (Some tt)
  end.

(** * Specification vocabulary *)

Section Extrema.
Context {A : Type} (key : A -> Z).

(** [x] is the first element of [l] whose key is the greatest. *)
Definition first_max (l : list A) (x : A) : Prop :=
  exists l1 l2, l = l1 ++ x :: l2
    /\ (forall y, In y l1 -> key y < key x)
    /\ (forall y, In y l2 -> key y <= key x).

(** [x] is the first element of [l] whose key is the least. *)
Definition first_min (l : list A) (x : A) : Prop :=
  exists l1 l2, l = l1 ++ x :: l2
    /\ (forall y, In y l1 -> key x < key y)
    /\ (forall y, In y l2 -> key x <= key y).
End Extrema.

(** [l'] is [l] without its first occurrence of [t]. *)
Definition taken (t : loc) (l l' : list loc) : Prop :=
  exists l1 l2, l = l1 ++ t :: l2 /\ ~ In t l1 /\ l' = l1 ++ l2.

(** A worker has a free slot when its answer is truthy (line 45); for the
    counts a worker reports, zero is busy and positive is free. *)
Definition has_free_slot (env : Cluster) (w : ActorHandle) : bool :=
  Py.truthy (available_slots env w).

(** The candidates of line 53. *)
Definition may_run_on_cpu (tp : TrialPhase.t) (s : TrialScheduler) (l : loc) : bool :=
  phase (obj s l) <=? TrialPhase.current_phase tp.

(** The state once [t] has left the pending queue for worker [w]. *)
Definition assigned (w : ActorHandle) (t : loc) (s : TrialScheduler) : TrialScheduler :=
  set_next_ref (S (next_ref s))
    (trace [AssignTrial w (obj s t) (next_ref s)]
       (set_pending (Py.remove t (pending_trial_states s)) s)).

(** [s'] is a later state of the same run: the population size and the GPU
    workers are those of [s], and the completed list has only grown. *)
Definition grows (s s' : TrialScheduler) : Prop :=
  trial_state_nums s' = trial_state_nums s
  /\ gpu_workers s' = gpu_workers s
  /\ exists l, completed_trial_states s' = completed_trial_states s ++ l.

(** [s'] is [s] with a longer trace and, possibly, another phase. *)
Definition only_logs (s s' : TrialScheduler) : Prop :=
  exists p l, s' = trace l (set_trial_phase p s).

(** Every run of [m] takes a state to an [R]-related one. *)
Definition respects (R : TrialScheduler -> TrialScheduler -> Prop) {A} (m : M A)
  : Prop :=
  forall s, R s (snd (m s)).

(** States reached from [s] by scheduling ticks, whatever the cluster does. *)
Inductive later (s : TrialScheduler) : TrialScheduler -> Prop :=
| later_now : later s s
| later_tick env s' : later s s' -> later s (snd (tick env s')).

(** [s'] has the in-flight handles of [s]. *)
Definition same_running (s s' : TrialScheduler) : Prop :=
  running_futures s' = running_futures s.

(** The two writes of lines 387-388. *)
Definition reset (t : Snapshot) : Snapshot :=
  set_worker_type None (set_worker_id (-1) t).

(** A tick dispatches with strategy [which]: after the phase update and
    the log of the pending queue, [assign_trial_to_worker] is that
    strategy, followed by the test of lines 259-260 on [future]. *)
Definition dispatches_with (which : Strategy) (env : Cluster) (s : TrialScheduler)
  : Prop :=
  let s1 := snd ((update_phase ;; log_pending) s) in
  assign_trial_to_worker env s =
  match which with
  | RoundRobin =>
      (future <- round_robin_strategy env (gpu_workers s1) (cpu_workers s1)
                   (trial_phase s1) ;;
       keep future) s1
  | GpuFirst =>
      (gpu_first_strategy env (gpu_workers s1) (cpu_workers s1) ;;
       keep None) s1
  end.

(** * Scenarios

    A population of four trials on one GPU worker (handle 0) and one CPU
    worker (handle 1) at the start of [run], a population of two on the
    same workers, and a single trial on a CPU worker alone. *)

Definition hp0 : Hyperparameter := mkHyperparameter 0.5%float 0.5%float 64 O.

Definition trial (i iter : Z) (acc : float) (st : TrialStatus) : Snapshot :=
  mkTrialState i hp0 None iter 4 0 acc st (-1) None (0, 0).

Definition population4 : list Snapshot :=
  [trial 0 0 0.1%float PENDING; trial 1 2 0.4%float PENDING;
   trial 2 1 0.2%float PENDING; trial 3 2 0.3%float PENDING].

Definition population2 : list Snapshot :=
  [trial 0 0 0.1%float PENDING; trial 1 0 0.2%float PENDING].

(** The tuner once [Tuner.__init__] has put the population [pop] into its
    ledger (tuner.py, 73-74: [self.trial_result.record_trial_progress] on
    each trial, with no log record); the hyperparameter object of each
    trial is placed in the tuner's store.  In the code these entries are
    the objects that the scheduler's pending queue refers to as well; here
    the scheduler holds copies ([scheduler_of]), and no statement below
    reads a pending trial after a mutation has written to its donor. *)
Definition tuner_of (pop : list Snapshot) : Tuner :=
  fold_left (fun t ts =>
               let '(o, t) := deserialize ts t in
               mkTuner (TrialResult.record_trial_progress o (trial_result t))
                       (hyperparameters t) (tuner_log t))
            pop (mkTuner (TrialResult.mk []) [] []).

(** The fields as [TrialScheduler.__init__] sets them (lines 191-215).
    [objects] holds the scheduler's copies of the population (see
    [tuner_of]); every later arrival is a fresh object, as [ray.get]
    makes it. *)
Definition scheduler_of (gpus cpus : list ActorHandle) (pop : list Snapshot)
  : TrialScheduler :=
  mkScheduler (tuner_of pop) (TrialPhase.mk 4 2 0)
    (seq 0 (length pop)) [] [] (Py.len pop) []
    (gpus ++ cpus) gpus cpus pop 0%nat [].

(** Four trials, none completed: 0 <= 4 - 3. *)
Definition early : TrialScheduler := scheduler_of [0%nat] [1%nat] population4.

(** Two trials, none completed: 0 > 2 - 3. *)
Definition late : TrialScheduler := scheduler_of [0%nat] [1%nat] population2.

(** One trial and a single CPU worker. *)
Definition cpu_only : TrialScheduler :=
  scheduler_of [] [1%nat] [trial 0 0 0.1%float PENDING].

(** Every worker reports one free slot and no active trial; no handle is
    ready. *)
Definition all_free : Cluster :=
  mkCluster (fun _ => 1) (fun _ => []) None (fun _ => Py.Raised (Py.RayTaskError 0)) 0.

(** The CPU worker is busy, the GPU worker has two free slots. *)
Definition cpu_busy : Cluster :=
  mkCluster (fun w => if Nat.eqb w 0 then 2 else 0) (fun _ => []) None
            (fun _ => Py.Raised (Py.RayTaskError 0)) 0.

(** Every worker reports one free slot; the first running handle is ready
    and resolves to [v]. *)
Definition answers (v : Py.Result Snapshot) : Cluster :=
  mkCluster (fun _ => 1) (fun _ => []) (Some 0%nat) (fun _ => v) 0.

(** The GPU worker is busy while the CPU worker trains trials 0 and 1. *)
Definition gpu_busy : Cluster :=
  mkCluster (fun w => if Nat.eqb w 0 then 0 else 1)
            (fun w => if Nat.eqb w 0 then []
                      else [trial 0 1 0.1%float RUNNING; trial 1 0 0.2%float RUNNING])
            None (fun _ => Py.Raised (Py.RayTaskError 0)) 0.

(** The GPU worker is free while the CPU worker trains trials 0 and 1. *)
Definition gpu_idle : Cluster :=
  mkCluster (fun _ => 1)
            (fun w => if Nat.eqb w 0 then []
                      else [trial 0 1 0.1%float RUNNING; trial 1 0 0.2%float RUNNING])
            None (fun _ => Py.Raised (Py.RayTaskError 0)) 0.

(** [late] once both trials are out on the workers. *)
Definition late_drained : TrialScheduler := set_pending [] late.

(** What [print_iteration_count] prints in state [s]. *)
Definition iteration_counts (s : TrialScheduler) : list (Z * (Z * Z)) :=
  Py.sorted Z.ltb fst
    (map (fun l => (id (obj s l), device_iteration_count (obj s l)))
         (completed_trial_states s)).


(** * Further code *)

(** ** worker.py *)

(** A Python number: [ray.nodes()] reports resource amounts as floats, the
    literals of the source are ints. *)
Inductive Number : Type :=
| Int (n : Z)
| Float (x : float).

Module Worker.

(** The dataclass [Worker] (worker.py, 7-14). *)
Record t : Type := mk {
  id : Z;
  num_cpus : Number;
  num_gpus : Number;
  node_name : String.string;
  calculate_ability : Number;
  used_count : Number
}.

End Worker.

(** An entry of [ray.nodes()], with the three keys the source reads;
    [Resources] is a dict from resource name to amount. *)
Record Node : Type := mkNode {
  Alive : bool;
  NodeManagerAddress : String.string;
  Resources : list (String.string * Number)
}.

(** [key in d] and [d.get(key, default)] on a dict. *)
Definition dict_has {V} (key : String.string) (d : list (String.string * V)) : bool :=
  existsb (fun kv => String.eqb key (fst kv)) d.

Fixpoint dict_get_default {V} (key : String.string) (default : V)
    (d : list (String.string * V)) : V :=
  match d with
  | [] => default
  | (k, v) :: d' => if String.eqb key k then v else dict_get_default key default d'
  end.

(** [a in visited_address], a set of strings. *)
Definition set_has (a : String.string) (visited : list String.string) : bool :=
  existsb (String.eqb a) visited.

(** The three variables of the loop of [generate_all_workers]. *)
Record Discovery : Type := mkDiscovery {
  visited_address : list String.string;
  found : list Worker.t;
  index : Z
}.

(** [workers.append(Worker(...)); index += 1] (lines 29-39 and 41-51). *)
Definition add_worker (cpus gpus : Number) (address : String.string)
    (d : Discovery) : Discovery :=
  mkDiscovery (visited_address d)
    (found d ++ [Worker.mk (index d) cpus gpus
                   (String.append "node:"%string address) (Int 0) (Int 0)])
    (index d + 1).

(** The body of the loop of [generate_all_workers] (worker.py, 23-52). *)
Definition visit (d : Discovery) (node : Node) : Discovery :=
  if Alive node then
    if set_has (NodeManagerAddress node) (visited_address d) then d   (* continue *)
    else
      let resource := Resources node in
      let d :=
        if dict_has "CPU"%string resource then
          add_worker (dict_get_default "CPU"%string (Int 0) resource) (Int 0)
            (NodeManagerAddress node) d
        else d in
      let d :=
        if dict_has "GPU"%string resource then
          add_worker (Int 0) (dict_get_default "GPU"%string (Int 0) resource)
            (NodeManagerAddress node) d
        else d in
      mkDiscovery (NodeManagerAddress node :: visited_address d) (found d) (index d)
  else d.

(** [generate_all_workers] (worker.py, 17-54), on what [ray.nodes()]
    returned. *)
Definition generate_all_workers (nodes : list Node) : list Worker.t :=
  found (fold_left visit nodes (mkDiscovery [] [] 0)).

(** What a worker made for [node] looks like. *)
Definition made_for (node : Node) (w : Worker.t) : Prop :=
  Alive node = true
  /\ Worker.node_name w = String.append "node:"%string (NodeManagerAddress node)
  /\ Worker.calculate_ability w = Int 0
  /\ Worker.used_count w = Int 0
  /\ ((dict_has "CPU"%string (Resources node) = true
       /\ Worker.num_cpus w = dict_get_default "CPU"%string (Int 0) (Resources node)
       /\ Worker.num_gpus w = Int 0)
      \/ (dict_has "GPU"%string (Resources node) = true
          /\ Worker.num_cpus w = Int 0
          /\ Worker.num_gpus w = dict_get_default "GPU"%string (Int 0) (Resources node))).

(** ** tuner.py: [get_min_iteration_trial] *)

Inductive MinIterationTrial : Type :=
| Target (worker : Z) (trial : Z)       (* the tuple returned *)
| NoCpuTrial.                           (* ValueError: min() of an empty list *)

Definition on_cpu (trial : TrialState loc) : bool :=
  match worker_type trial with
  | Some CPU => true
  | _ => false
  end.

(** [Tuner.get_min_iteration_trial] (tuner.py, 126-133). *)
Definition get_min_iteration_trial (t : Tuner) : MinIterationTrial :=
  let cpu_trial :=
    filter on_cpu (map snd (TrialResult.trial_progress (trial_result t))) in
  match Py.min iteration cpu_trial with
  | Some target => Target (worker_id target) (id target)
  | None => NoCpuTrial
  end.

(** ** trial_scheduler.py: [TrialScheduler.__init__] *)

Definition is_gpu (k : WorkerType) : bool :=
  match k with GPU => true | CPU => false end.

Definition is_cpu (k : WorkerType) : bool :=
  match k with CPU => true | GPU => false end.

(** [TrialScheduler.__init__] (trial_scheduler.py, 178-218).  [worker_type]
    is what each worker answers to [get_worker_type]; [phase] is the
    [TrialPhase] built from the two constants of the configuration;
    [trial_states] refers to the population, held in [population].  No
    handle has been issued and nothing is in the trace yet. *)
Definition init (tuner : Tuner) (phase : TrialPhase.t)
    (worker_type : ActorHandle -> WorkerType)
    (workers : list ActorHandle) (trial_states : list loc)
    (population : list Snapshot) : TrialScheduler :=
  mkScheduler tuner phase
    trial_states [] [] (Py.len trial_states)
    []
    workers
    (filter (fun worker => is_gpu (worker_type worker)) workers)
    (filter (fun worker => is_cpu (worker_type worker)) workers)
    population 0%nat [].

(** ** More vocabulary *)

(** [l] is [l1] and [l2] interleaved: each element of [l] goes to one of
    the two, and both keep the order of [l]. *)
Inductive interleaving {A : Type} : list A -> list A -> list A -> Prop :=
| interleaving_nil : interleaving [] [] []
| interleaving_left x l1 l2 l :
    interleaving l1 l2 l -> interleaving (x :: l1) l2 (x :: l)
| interleaving_right x l1 l2 l :
    interleaving l1 l2 l -> interleaving l1 (x :: l2) (x :: l).

(** Two trials that have both reached iteration 2, one phase on, while
    the scheduler is still in phase 0. *)
Definition advanced : TrialScheduler :=
  scheduler_of [0%nat] [1%nat]
    [trial 0 2 0.1%float PENDING; trial 1 3 0.2%float PENDING].

(** [l] lists its elements by non-decreasing [key]. *)
Definition ascending {A} (key : A -> Z) (l : list A) : Prop :=
  StronglySorted (fun a b => key a <= key b) l.

(** What one completion handle may add to the queues: at most one trial
    in all, and nothing is removed. *)
Definition queues_grow_by (n : nat) (s s' : TrialScheduler) : Prop :=
  exists lp lc,
    pending_trial_states s' = pending_trial_states s ++ lp
    /\ completed_trial_states s' = completed_trial_states s ++ lc
    /\ (length lp + length lc <= n)%nat
    /\ running_futures s' = running_futures s.

(** Three nodes: one with CPUs and a GPU, a dead one, and the first one
    listed again. *)
Definition three_nodes : list Node :=
  [mkNode true "10.0.0.1"%string
     [("CPU"%string, Float 8%float); ("GPU"%string, Float 1%float);
      ("memory"%string, Float 1024%float)];
   mkNode false "10.0.0.2"%string [("CPU"%string, Float 4%float)];
   mkNode true "10.0.0.1"%string [("CPU"%string, Float 8%float)];
   mkNode true "10.0.0.3"%string [("CPU"%string, Float 2%float)]].

(** [s'] has the completed list of [s]. *)
Definition same_completed (s s' : TrialScheduler) : Prop :=
  completed_trial_states s' = completed_trial_states s.

(** The GPU worker is handle 0, every other handle is a CPU worker. *)
Definition gpu_is_0 (worker : ActorHandle) : WorkerType :=
  if Nat.eqb worker 0 then GPU else CPU.

(** Trial 0 as the tuner holds it on its return with NEED_MUTATION, and
    the tuner whose ledger holds [population4]. *)
Definition returned0 : TrialState loc :=
  set_hyperparameter 4%nat (trial 0 2 0.1%float NEED_MUTATION).

Definition ledger4 : Tuner :=
  snd (deserialize (trial 0 2 0.1%float NEED_MUTATION) (tuner_of population4)).

(** What a dispatch strategy may come to from [s]: nothing but a longer
    trace and no handle, or one pending trial assigned and its handle. *)
Definition dispatch_outcome (s : TrialScheduler)
    (r : option ObjectRef * TrialScheduler) : Prop :=
  (exists l, r = (None, trace l s))
  \/ (exists w t l,
        In t (pending_trial_states s)
        /\ r = (Some (next_ref s), assigned w t (trace l s))).

(** * Properties *)

(** ** The builtins *)

Section ExtremumFacts.
Context {A : Type} (key : A -> Z).

Lemma max_from_scan (l pre mid : list A) (best : A) :
  (forall y, In y pre -> key y < key best) ->
  (forall y, In y mid -> key y <= key best) ->
  first_max key (pre ++ best :: mid ++ l) (Py.max_from key best l).
Proof.
  revert pre mid best.
  induction l as [|x l IH]; intros pre mid best Hpre Hmid; simpl.
  - exists pre, mid. rewrite app_nil_r. auto.
  - destruct (key best <? key x) eqn:E.
    + apply Z.ltb_lt in E.
      replace (pre ++ best :: mid ++ x :: l)
        with ((pre ++ best :: mid) ++ x :: [] ++ l)
        by (rewrite <- app_assoc; reflexivity).
      apply IH.
      * intros y Hy. apply in_app_or in Hy.
        destruct Hy as [Hy | [Hy | Hy]].
        -- specialize (Hpre y Hy). lia.
        -- subst y. exact E.
        -- specialize (Hmid y Hy). lia.
      * intros y [].
    + apply Z.ltb_ge in E.
      replace (pre ++ best :: mid ++ x :: l)
        with (pre ++ best :: (mid ++ [x]) ++ l)
        by (rewrite <- app_assoc; reflexivity).
      apply IH; [exact Hpre|].
      intros y Hy. apply in_app_or in Hy.
      destruct Hy as [Hy | [Hy | []]].
      -- auto.
      -- subst y. exact E.
Qed.

Lemma max_spec (l : list A) (x : A) :
  Py.max key l = Some x -> first_max key l x.
Proof.
  destruct l as [|a l]; simpl; intros E; [discriminate|].
  injection E as <-.
  apply (max_from_scan l [] [] a); intros y [].
Qed.

Lemma max_none (l : list A) : Py.max key l = None <-> l = [].
Proof. destruct l; simpl; split; congruence. Qed.

Lemma min_none (l : list A) : Py.min key l = None <-> l = [].
Proof. destruct l; simpl; split; congruence. Qed.

Lemma first_max_in (l : list A) (x : A) : first_max key l x -> In x l.
Proof.
  intros (l1 & l2 & -> & _). apply in_or_app. right. left. reflexivity.
Qed.

Lemma first_max_ge (l : list A) (x y : A) :
  first_max key l x -> In y l -> key y <= key x.
Proof.
  intros (l1 & l2 & -> & H1 & H2) Hy.
  apply in_app_or in Hy. destruct Hy as [Hy | [Hy | Hy]].
  - specialize (H1 y Hy). lia.
  - subst. lia.
  - auto.
Qed.
End ExtremumFacts.

Section MinFacts.
Context {A : Type} (key : A -> Z).

Lemma min_from_as_max (l : list A) (best : A) :
  Py.min_from key best l = Py.max_from (fun a => - key a) best l.
Proof.
  revert best. induction l as [|x l IH]; intros best; simpl; [reflexivity|].
  replace (- key best <? - key x) with (key x <? key best).
  - apply IH.
  - destruct (key x <? key best) eqn:E; symmetry.
    + apply Z.ltb_lt in E. apply Z.ltb_lt. lia.
    + apply Z.ltb_ge in E. apply Z.ltb_ge. lia.
Qed.

Lemma min_spec (l : list A) (x : A) :
  Py.min key l = Some x -> first_min key l x.
Proof.
  intros E.
  assert (M : Py.max (fun a => - key a) l = Some x).
  { destruct l as [|a l]; simpl in *; [discriminate|].
    rewrite <- min_from_as_max. exact E. }
  apply max_spec in M. destruct M as (l1 & l2 & -> & H1 & H2).
  exists l1, l2. split; [reflexivity|]. split; intros y Hy.
  - specialize (H1 y Hy). simpl in H1. lia.
  - specialize (H2 y Hy). simpl in H2. lia.
Qed.

Lemma first_min_in (l : list A) (x : A) : first_min key l x -> In x l.
Proof.
  intros (l1 & l2 & -> & _). apply in_or_app. right. left. reflexivity.
Qed.

Lemma first_min_le (l : list A) (x y : A) :
  first_min key l x -> In y l -> key x <= key y.
Proof.
  intros (l1 & l2 & -> & H1 & H2) Hy.
  apply in_app_or in Hy. destruct Hy as [Hy | [Hy | Hy]].
  - specialize (H1 y Hy). lia.
  - subst. lia.
  - auto.
Qed.
End MinFacts.

(** ** Traces and queries *)

Lemma trace_nil s : trace [] s = s.
Proof. destruct s; unfold trace, set_events; simpl. rewrite app_nil_r. reflexivity. Qed.

Lemma trace_app l1 l2 s : trace l2 (trace l1 s) = trace (l1 ++ l2) s.
Proof. unfold trace, set_events; simpl. rewrite app_assoc. reflexivity. Qed.

Lemma for_each_get_available_slots env ws s :
  for_each (get_available_slots env) ws s
  = (map (available_slots env) ws, trace (map GetAvailableSlots ws) s).
Proof.
  revert s. induction ws as [|w ws IH]; intros s.
  - simpl. unfold ret. rewrite trace_nil. reflexivity.
  - simpl. unfold bind at 1. simpl. unfold bind at 1. rewrite IH. simpl.
    unfold ret, bind. simpl. rewrite trace_app. reflexivity.
Qed.

Lemma for_each_get_active_trials env ws s :
  for_each (get_active_trials env) ws s
  = (map (active_trials env) ws, trace (map GetActiveTrials ws) s).
Proof.
  revert s. induction ws as [|w ws IH]; intros s.
  - simpl. unfold ret. rewrite trace_nil. reflexivity.
  - simpl. unfold bind at 1. simpl. unfold bind at 1. rewrite IH. simpl.
    unfold ret, bind. simpl. rewrite trace_app. reflexivity.
Qed.

Lemma with_free_slot_map (f : ActorHandle -> Z) ws :
  with_free_slot ws (map f ws)
  = map (fun w => (w, f w)) (filter (fun w => Py.truthy (f w)) ws).
Proof.
  unfold with_free_slot. induction ws as [|w ws IH]; simpl; [reflexivity|].
  destruct (Py.truthy (f w)); simpl; rewrite IH; reflexivity.
Qed.

(** ** round-robin *)

Lemma remove_taken t l : In t l -> taken t l (Py.remove t l).
Proof.
  induction l as [|y l IH]; intros Hin; [destruct Hin|].
  simpl. destruct (Nat.eqb t y) eqn:E.
  - apply Nat.eqb_eq in E. subst y. exists [], l. simpl. auto.
  - apply Nat.eqb_neq in E. destruct Hin as [-> | Hin]; [congruence|].
    destruct (IH Hin) as (l1 & l2 & -> & Hn & ->).
    exists (y :: l1), l2. simpl. repeat split; auto.
    intros [H | H]; [congruence | auto].
Qed.

Lemma assign_steps w t s :
  (modify (fun s => set_pending (Py.remove t (pending_trial_states s)) s) ;;
   future <- assign_trial w t ;; ret (Some future)) s
  = (Some (next_ref s), assigned w t s).
Proof. reflexivity. Qed.

Lemma assign_to_gpu_unfold av s :
  assign_to_gpu av s =
  match Py.max snd av, Py.min (fun l => iteration (obj s l)) (pending_trial_states s) with
  | Some w, Some t => (Some (next_ref s), assigned (fst w) t s)
  | _, _ => (None, s)
  end.
Proof.
  unfold assign_to_gpu. unfold bind at 1. unfold gets at 1. cbn [fst snd].
  destruct (Py.max snd av); [|reflexivity].
  destruct (Py.min _ _); reflexivity.
Qed.

Lemma round_robin_unfold env gpus cpus tp s p ps :
  pending_trial_states s = p :: ps ->
  round_robin_strategy env gpus cpus tp s =
  let s1 := trace (map GetAvailableSlots cpus) s in
  let on_gpu :=
    let s2 := trace (map GetAvailableSlots gpus) s1 in
    match filter (has_free_slot env) gpus with
    | [] => (None, s2)
    | _ :: _ =>
        assign_to_gpu (map (fun w => (w, available_slots env w))
                           (filter (has_free_slot env) gpus)) s2
    end in
  match filter (has_free_slot env) cpus with
  | [] => on_gpu
  | w :: _ =>
      match Py.max (fun l => iteration (obj s l))
                   (filter (may_run_on_cpu tp s) (pending_trial_states s)) with
      | Some t => (Some (next_ref s), assigned w t s1)
      | None => on_gpu
      end
  end.
Proof.
  intros E. unfold round_robin_strategy. unfold bind at 1. unfold gets at 1.
  cbn [fst snd]. rewrite E.
  unfold bind at 1. rewrite for_each_get_available_slots. cbn [fst snd].
  rewrite with_free_slot_map, map_map. cbn [fst]. rewrite map_id.
  fold (has_free_slot env).
  assert (G : forall s2,
     (slots <- for_each (get_available_slots env) gpus ;;
      match with_free_slot gpus slots with
      | [] => ret None
      | _ :: _ => assign_to_gpu (with_free_slot gpus slots)
      end) s2
     = let s3 := trace (map GetAvailableSlots gpus) s2 in
       match filter (has_free_slot env) gpus with
       | [] => (None, s3)
       | _ :: _ => assign_to_gpu (map (fun w => (w, available_slots env w))
                           (filter (has_free_slot env) gpus)) s3
       end).
  { intros s2. unfold bind at 1. rewrite for_each_get_available_slots. cbn [fst snd].
    rewrite with_free_slot_map. fold (has_free_slot env).
    destruct (filter (has_free_slot env) gpus); reflexivity. }
  cbv zeta. rewrite <- E.
  destruct (filter (has_free_slot env) cpus) as [|w rest].
  - unfold bind at 1. cbn [fst snd ret]. apply G.
  - set (s1 := trace (map GetAvailableSlots cpus) (snd (gets pending_trial_states s))).
    match goal with |- bind ?X _ _ = _ =>
      assert (HX : X s1 =
        match Py.max (fun l => iteration (obj s l))
                (filter (may_run_on_cpu tp s) (pending_trial_states s)) with
        | Some t => (Some (next_ref s), assigned w t s1)
        | None => (None, s1)
        end)
    end.
    { unfold bind at 1. unfold gets at 1 2. cbn [fst snd].
      change (fun l0 : loc => phase (obj s1 l0) <=? TrialPhase.current_phase tp)
        with (may_run_on_cpu tp s).
      change (fun l0 : loc => iteration (obj s1 l0))
        with (fun l0 : loc => iteration (obj s l0)).
      destruct (Py.max _ _) as [t|]; [|reflexivity].
      rewrite assign_steps. reflexivity. }
    unfold bind at 1. rewrite HX.
    destruct (Py.max _ _) as [t|].
    + reflexivity.
    + cbn [fst snd ret]. apply G.
Qed.

Lemma first_max_map {A B} (key : B -> Z) (g : A -> B) (l : list A) (y : B) :
  first_max key (map g l) y ->
  exists x, y = g x /\ first_max (fun a => key (g a)) l x.
Proof.
  intros (l1 & l2 & E & H1 & H2).
  apply map_eq_app in E. destruct E as (m1 & m2 & -> & <- & E).
  apply map_eq_cons in E. destruct E as (x & m3 & -> & <- & <-).
  exists x. split; [reflexivity|].
  exists m1, m3. split; [reflexivity|]. split; intros a Ha.
  - apply H1. apply in_map. exact Ha.
  - apply H2. apply in_map. exact Ha.
Qed.

Lemma events_assigned w t s :
  events (assigned w t s) = events s ++ [AssignTrial w (obj s t) (next_ref s)].
Proof. reflexivity. Qed.

Lemma pending_assigned w t s :
  pending_trial_states (assigned w t s) = Py.remove t (pending_trial_states s).
Proof. reflexivity. Qed.

(** C6.  Round-robin on a non-empty pending queue.  If some CPU worker has
    a free slot and some pending trial has [phase <= current_phase], the
    first such trial of greatest iteration leaves the pending queue for the
    first CPU worker with a free slot, and the handle of that assignment is
    returned.  Otherwise, if some GPU worker has a free slot, the first GPU
    worker with the most free slots gets the first pending trial of least
    iteration.  Otherwise no handle is returned and the queue is as it
    was. *)
Theorem round_robin_dispatch env gpus cpus tp s :
  pending_trial_states s <> [] ->
  let r := round_robin_strategy env gpus cpus tp s in
  let free_cpus := filter (has_free_slot env) cpus in
  let free_gpus := filter (has_free_slot env) gpus in
  let candidates := filter (may_run_on_cpu tp s) (pending_trial_states s) in
  (forall w rest, free_cpus = w :: rest -> candidates <> [] ->
     exists t,
       first_max (fun l => iteration (obj s l)) candidates t
       /\ taken t (pending_trial_states s) (pending_trial_states (snd r))
       /\ fst r = Some (next_ref s)
       /\ events (snd r) = events s ++ map GetAvailableSlots cpus
                             ++ [AssignTrial w (obj s t) (next_ref s)])
  /\ (free_cpus = [] \/ candidates = [] -> free_gpus <> [] ->
     exists w t,
       first_max (available_slots env) free_gpus w
       /\ first_min (fun l => iteration (obj s l)) (pending_trial_states s) t
       /\ taken t (pending_trial_states s) (pending_trial_states (snd r))
       /\ fst r = Some (next_ref s)
       /\ events (snd r) = events s ++ map GetAvailableSlots cpus
                             ++ map GetAvailableSlots gpus
                             ++ [AssignTrial w (obj s t) (next_ref s)])
  /\ (free_cpus = [] \/ candidates = [] -> free_gpus = [] ->
       fst r = None
       /\ pending_trial_states (snd r) = pending_trial_states s
       /\ events (snd r) = events s ++ map GetAvailableSlots cpus
                             ++ map GetAvailableSlots gpus).
Proof.
  intros Hne r free_cpus free_gpus candidates.
  destruct (pending_trial_states s) as [|p ps] eqn:E; [congruence|].
  assert (R := round_robin_unfold env gpus cpus tp s p ps E).
  fold r in R. cbv zeta in R. rewrite E in R.
  fold candidates free_cpus free_gpus in R.
  (* the GPU part, common to the last two cases *)
  set (s2 := trace (map GetAvailableSlots gpus) (trace (map GetAvailableSlots cpus) s)) in R.
  assert (Ev2 : events s2 = events s ++ map GetAvailableSlots cpus ++ map GetAvailableSlots gpus).
  { unfold s2, trace; simpl. rewrite <- app_assoc. reflexivity. }
  assert (GPU : forall r',
     r' = match free_gpus with
          | [] => (None, s2)
          | _ :: _ => assign_to_gpu (map (fun w => (w, available_slots env w)) free_gpus) s2
          end ->
     (free_gpus <> [] ->
       exists w t,
       first_max (available_slots env) free_gpus w
       /\ first_min (fun l => iteration (obj s l)) (p :: ps) t
       /\ taken t (p :: ps) (pending_trial_states (snd r'))
       /\ fst r' = Some (next_ref s)
       /\ events (snd r') = events s ++ map GetAvailableSlots cpus
                             ++ map GetAvailableSlots gpus
                             ++ [AssignTrial w (obj s t) (next_ref s)])
     /\ (free_gpus = [] ->
       fst r' = None
       /\ pending_trial_states (snd r') = p :: ps
       /\ events (snd r') = events s ++ map GetAvailableSlots cpus
                             ++ map GetAvailableSlots gpus)).
  { intros r' ->. split.
    - intros Hg. destruct free_gpus as [|g gs] eqn:Eg; [congruence|].
      rewrite assign_to_gpu_unfold.
      assert (Ps2 : pending_trial_states s2 = p :: ps) by exact E.
      rewrite Ps2.
      destruct (Py.max snd _) as [wn|] eqn:Emax; [|discriminate Emax].
      destruct (Py.min (fun l => iteration (obj s2 l)) (p :: ps)) as [t|] eqn:Emin;
        [|discriminate Emin].
      apply max_spec in Emax. apply first_max_map in Emax.
      destruct Emax as (w & -> & Hw). simpl in Hw.
      apply min_spec in Emin.
      exists w, t. split; [exact Hw|]. split; [exact Emin|].
      cbn [fst snd]. rewrite pending_assigned, events_assigned, Ps2, Ev2.
      split; [apply remove_taken; eapply first_min_in; exact Emin|].
      split; [reflexivity|].
      rewrite <- !app_assoc. reflexivity.
    - intros ->. cbn [fst snd]. auto. }
  split; [|split].
  - intros w rest Ew Hc. rewrite Ew in R.
    destruct (Py.max (fun l => iteration (obj s l)) candidates) as [t|] eqn:Emax.
    + exists t. rewrite R. cbn [fst snd].
      apply max_spec in Emax.
      rewrite pending_assigned, events_assigned.
      split; [exact Emax|].
      split.
      { change (pending_trial_states (trace (map GetAvailableSlots cpus) s))
          with (pending_trial_states s). rewrite E.
        apply remove_taken.
        apply first_max_in in Emax. unfold candidates in Emax.
        apply filter_In in Emax. apply Emax. }
      split; [reflexivity|].
      unfold trace; simpl. rewrite <- app_assoc. reflexivity.
    + apply max_none in Emax. contradiction.
  - intros Hor Hg.
    apply (GPU r); [|exact Hg].
    destruct Hor as [Hc | Hc].
    + rewrite Hc in R. exact R.
    + rewrite Hc in R. simpl in R. destruct free_cpus; exact R.
  - intros Hor Hg.
    apply (GPU r); [|exact Hg].
    destruct Hor as [Hc | Hc].
    + rewrite Hc in R. exact R.
    + rewrite Hc in R. simpl in R. destruct free_cpus; exact R.
Qed.

(** ** gpu-first *)

Lemma gpu_first_unfold env gpus cpus s :
  gpu_first_strategy env gpus cpus s =
  let s1 := trace (map GetAvailableSlots gpus) s in
  match filter (has_free_slot env) gpus with
  | [] => (None, s1)
  | _ :: _ =>
      if Py.truthy (Py.len (pending_trial_states s)) then
        assign_to_gpu (map (fun w => (w, available_slots env w))
                           (filter (has_free_slot env) gpus)) s1
      else
        let s2 := trace (map GetActiveTrials cpus) s1 in
        match Py.min (fun p => iteration (snd p))
                     (running_cpu cpus (map (active_trials env) cpus)) with
        | None => (None, s2)
        | Some victim =>
            (None, trace [Log INFO (MsgPreempt (id (snd victim)));
                          SendSignal (fst victim) (id (snd victim))] s2)
        end
  end.
Proof.
  unfold gpu_first_strategy. unfold bind at 1.
  rewrite for_each_get_available_slots. cbn [fst snd].
  rewrite with_free_slot_map. fold (has_free_slot env).
  destruct (filter (has_free_slot env) gpus) as [|g gs]; [reflexivity|].
  cbn [map]. unfold bind at 1. unfold gets at 1 2. cbn [fst snd].
  change (pending_trial_states (trace (map GetAvailableSlots gpus) s))
    with (pending_trial_states s).
  destruct (Py.truthy (Py.len (pending_trial_states s))); [reflexivity|].
  unfold bind at 1. rewrite for_each_get_active_trials. cbn [fst snd].
  destruct (Py.min _ _) as [v|]; [|reflexivity].
  unfold send_signal, emit, bind, modify, ret. cbn [fst snd].
  rewrite (trace_app [_] [_]). reflexivity.
Qed.

Lemma running_cpu_in (act : ActorHandle -> list Snapshot) cpus w m :
  In (w, m) (running_cpu cpus (map act cpus))
  <-> In w cpus /\ Py.min iteration (act w) = Some m.
Proof.
  unfold running_cpu. induction cpus as [|c cpus IH]; simpl.
  - tauto.
  - rewrite in_app_iff, IH. clear IH.
    assert (H : In (w, m)
                  (if 0 <? Py.len (act c)
                   then match Py.min iteration (act c) with
                        | Some t => [(c, t)]
                        | None => []
                        end
                   else [])
                <-> c = w /\ Py.min iteration (act c) = Some m).
    { destruct (act c) as [|a l] eqn:E.
      - simpl. split; [tauto | intros [_ H]; discriminate H].
      - replace (0 <? Py.len (a :: l)) with true
          by (symmetry; apply Z.ltb_lt; unfold Py.len; simpl length; lia).
        destruct (Py.min iteration (a :: l)) as [t|] eqn:Em.
        + simpl. split.
          * intros [H | []]. injection H as -> ->. auto.
          * intros [-> H]. injection H as ->. auto.
        + simpl. split; [tauto | intros [_ H]; discriminate H]. }
    rewrite H. split.
    + intros [[-> Hm] | [Hin Hm]]; auto.
    + intros [[-> | Hin] Hm]; auto.
Qed.

(** The victim of lines 115-122 is a running CPU trial that no running CPU
    trial is behind. *)
Lemma victim_is_least env cpus v :
  Py.min (fun p => iteration (snd p))
         (running_cpu cpus (map (active_trials env) cpus)) = Some v ->
  In (fst v) cpus /\ In (snd v) (active_trials env (fst v))
  /\ forall w t, In w cpus -> In t (active_trials env w) ->
       iteration (snd v) <= iteration t.
Proof.
  intros E. apply min_spec in E.
  pose proof (first_min_in _ _ _ E) as Hin.
  destruct v as [w0 m0]. apply running_cpu_in in Hin. destruct Hin as [Hw Hm].
  cbn [fst snd]. split; [exact Hw|]. split.
  - apply min_spec in Hm. eapply first_min_in. exact Hm.
  - intros w t Hwc Ht.
    destruct (Py.min iteration (active_trials env w)) as [m|] eqn:Em.
    + assert (Hin : In (w, m) (running_cpu cpus (map (active_trials env) cpus)))
        by (apply running_cpu_in; auto).
      pose proof (first_min_le _ _ _ _ E Hin) as H1. cbn [fst snd] in H1.
      apply min_spec in Em.
      pose proof (first_min_le _ _ _ _ Em Ht) as H2. lia.
    + apply min_none in Em. rewrite Em in Ht. destruct Ht.
Qed.

Lemma victim_exists env cpus w t :
  In w cpus -> In t (active_trials env w) ->
  exists v, Py.min (fun p => iteration (snd p))
              (running_cpu cpus (map (active_trials env) cpus)) = Some v.
Proof.
  intros Hw Ht.
  destruct (Py.min (fun p => iteration (snd p)) _) as [v|] eqn:E; [eauto|].
  apply min_none in E.
  destruct (Py.min iteration (active_trials env w)) as [m|] eqn:Em.
  - assert (Hin : In (w, m) (running_cpu cpus (map (active_trials env) cpus)))
      by (apply running_cpu_in; auto).
    rewrite E in Hin. destruct Hin.
  - apply min_none in Em. rewrite Em in Ht. destruct Ht.
Qed.

Lemma no_victim env cpus :
  (forall w, In w cpus -> active_trials env w = []) ->
  Py.min (fun p => iteration (snd p))
         (running_cpu cpus (map (active_trials env) cpus)) = None.
Proof.
  intros H.
  destruct (Py.min (fun p => iteration (snd p)) _) as [v|] eqn:E; [|reflexivity].
  apply victim_is_least in E. destruct E as (Hw & Ht & _).
  rewrite (H _ Hw) in Ht. destruct Ht.
Qed.

(** C2, as the code has it.  With no free GPU slot [gpu_first_strategy]
    returns no handle at once: it has asked the GPU workers for their slots
    and nothing else.  It looks at the CPU workers only when some GPU
    worker has a free slot and the pending queue is empty: then it asks
    every CPU worker for its active trials and, if there is any, signals
    the worker of a trial of globally least iteration, naming that trial;
    no handle is returned. *)
Theorem gpu_first_preempts_for_a_free_gpu env gpus cpus s :
  let r := gpu_first_strategy env gpus cpus s in
  let asked_gpus := map GetAvailableSlots gpus in
  let asked_cpus := map GetActiveTrials cpus in
  (filter (has_free_slot env) gpus = [] ->
     r = (None, trace asked_gpus s))
  /\ (filter (has_free_slot env) gpus <> [] -> pending_trial_states s = [] ->
       fst r = None
       /\ pending_trial_states (snd r) = []
       /\ ((forall w, In w cpus -> active_trials env w = []) ->
             events (snd r) = events s ++ asked_gpus ++ asked_cpus)
       /\ (forall w0 t0, In w0 cpus -> In t0 (active_trials env w0) ->
             exists w t,
               In w cpus /\ In t (active_trials env w)
               /\ (forall w' t', In w' cpus -> In t' (active_trials env w') ->
                     iteration t <= iteration t')
               /\ events (snd r) = events s ++ asked_gpus ++ asked_cpus
                                     ++ [Log INFO (MsgPreempt (id t));
                                         SendSignal w (id t)])).
Proof.
  intros r asked_gpus asked_cpus.
  pose proof (gpu_first_unfold env gpus cpus s) as R. fold r in R. cbv zeta in R.
  split.
  - intros Hg. rewrite Hg in R. exact R.
  - intros Hg Hp. rewrite Hp in R.
    destruct (filter (has_free_slot env) gpus) as [|g gs]; [congruence|].
    change (Py.truthy (Py.len (@nil loc))) with false in R. cbv iota in R.
    assert (Ev : events (trace (map GetActiveTrials cpus)
                           (trace (map GetAvailableSlots gpus) s))
                 = events s ++ asked_gpus ++ asked_cpus).
    { unfold trace; simpl. rewrite <- app_assoc. reflexivity. }
    destruct (Py.min _ _) as [v|] eqn:Ev0; rewrite R; cbn [fst snd].
    + split; [reflexivity|]. split; [exact Hp|]. split.
      * intros Hnone. rewrite (no_victim env cpus Hnone) in Ev0. discriminate Ev0.
      * intros w0 t0 Hw0 Ht0.
        destruct (victim_is_least env cpus v Ev0) as (Hw & Ht & Hmin).
        exists (fst v), (snd v). repeat split; auto.
        change (events (trace ?l ?s)) with (events s ++ l).
        rewrite Ev. rewrite <- !app_assoc. reflexivity.
    + split; [reflexivity|]. split; [exact Hp|]. split.
      * intros _. exact Ev.
      * intros w0 t0 Hw0 Ht0.
        destruct (victim_exists env cpus w0 t0 Hw0 Ht0) as [v Hv]. congruence.
Qed.

(** ** round-robin on an empty queue *)

(** C10.  With an empty pending queue [round_robin_strategy] returns no
    handle and leaves the world as it was: no worker is asked for its
    slots, no queue changes, nothing is assigned or preempted, whatever
    the workers would have answered. *)
Theorem round_robin_empty_pending_is_idle env gpus cpus tp s :
  pending_trial_states s = [] ->
  round_robin_strategy env gpus cpus tp s = (None, s).
Proof.
  intros E. unfold round_robin_strategy, bind, gets. cbn [fst snd]. rewrite E.
  reflexivity.
Qed.

(** ** What a tick never undoes *)

Lemma grows_refl s : grows s s.
Proof. repeat split. exists []. rewrite app_nil_r. reflexivity. Qed.

Lemma grows_trans s1 s2 s3 : grows s1 s2 -> grows s2 s3 -> grows s1 s3.
Proof.
  intros (N1 & G1 & l1 & C1) (N2 & G2 & l2 & C2). repeat split.
  - congruence.
  - congruence.
  - exists (l1 ++ l2). rewrite C2, C1, app_assoc. reflexivity.
Qed.

Lemma grows_same s s' :
  trial_state_nums s' = trial_state_nums s ->
  gpu_workers s' = gpu_workers s ->
  completed_trial_states s' = completed_trial_states s ->
  grows s s'.
Proof.
  intros N G C. repeat split; auto. exists []. rewrite app_nil_r. exact C.
Qed.

Lemma only_logs_refl s : only_logs s s.
Proof.
  exists (trial_phase s), []. destruct s. unfold trace, set_events, set_trial_phase.
  simpl. rewrite app_nil_r. reflexivity.
Qed.

Lemma only_logs_trans s1 s2 s3 : only_logs s1 s2 -> only_logs s2 s3 -> only_logs s1 s3.
Proof.
  intros (p1 & l1 & ->) (p2 & l2 & ->). exists p2, (l1 ++ l2).
  unfold trace, set_events, set_trial_phase. simpl. rewrite app_assoc. reflexivity.
Qed.

Lemma only_logs_trace l s : only_logs s (trace l s).
Proof.
  exists (trial_phase s), l. destruct s. reflexivity.
Qed.

Lemma only_logs_phase p s : only_logs s (set_trial_phase p s).
Proof. exists p, []. rewrite trace_nil. reflexivity. Qed.

(** Properties of a computation that hold step by step, for any preorder
    on states. *)
Section Respects.
Variable R : TrialScheduler -> TrialScheduler -> Prop.
Hypothesis R_refl : forall s, R s s.
Hypothesis R_trans : forall s1 s2 s3, R s1 s2 -> R s2 s3 -> R s1 s3.

Lemma respects_ret {A} (a : A) : respects R (ret a).
Proof. intros s. apply R_refl. Qed.

Lemma respects_gets {A} (f : TrialScheduler -> A) : respects R (gets f).
Proof. intros s. apply R_refl. Qed.

Lemma respects_bind {A B} (m : M A) (k : A -> M B) :
  respects R m -> (forall a, respects R (k a)) -> respects R (bind m k).
Proof.
  intros Hm Hk s. unfold bind. cbv zeta.
  eapply R_trans; [apply Hm | apply Hk].
Qed.

Lemma respects_modify (f : TrialScheduler -> TrialScheduler) :
  (forall s, R s (f s)) -> respects R (modify f).
Proof. intros H s. apply H. Qed.

Lemma respects_for_each {A B} (f : A -> M B) (l : list A) :
  (forall a, respects R (f a)) -> respects R (for_each f l).
Proof.
  intros Hf. induction l as [|x l IH]; simpl.
  - apply respects_ret.
  - apply respects_bind; [apply Hf|]. intros y.
    apply respects_bind; [exact IH|]. intros ys. apply respects_ret.
Qed.
End Respects.

(** Walks down a monadic term: a [bind] splits, a [match] or [if] on a
    value is taken apart, [leaf] closes what is left. *)
Ltac walk refl trans leaf :=
  repeat first
    [ leaf
    | progress cbv zeta
    | apply (respects_ret _ refl)
    | apply (respects_gets _ refl)
    | apply (respects_bind _ trans)
    | apply (respects_for_each _ refl trans)
    | match goal with
      | |- forall _, _ => intro
      | |- respects _ (match ?x with _ => _ end) => destruct x
      | |- respects _ (if ?x then _ else _) => destruct x
      end ].

Create HintDb mono.

Ltac mono :=
  walk grows_refl grows_trans
    ltac:(first [ solve [auto with mono]
                | apply respects_modify; intros ?; apply grows_same; reflexivity ]).

Lemma monotone_emit e : respects grows (emit e).
Proof. unfold emit. mono. Qed.

Lemma monotone_new_object v : respects grows (new_object v).
Proof. intros s. apply grows_same; reflexivity. Qed.

Lemma monotone_update_object l f : respects grows (update_object l f).
Proof. unfold update_object. mono. Qed.

Lemma monotone_tuner_call {A} (f : Tuner -> A * Tuner) : respects grows (tuner_call f).
Proof. intros s. apply grows_same; reflexivity. Qed.

Lemma monotone_append_pending l : respects grows (append_pending l).
Proof. unfold append_pending. mono. Qed.

Lemma monotone_append_completed l : respects grows (append_completed l).
Proof.
  apply respects_modify. intros s. repeat split. exists [l]. reflexivity.
Qed.

#[local] Hint Resolve monotone_emit monotone_new_object
  monotone_update_object monotone_tuner_call monotone_append_pending
  monotone_append_completed : mono.

Lemma monotone_assign_trial w t : respects grows (assign_trial w t).
Proof. unfold assign_trial. mono. Qed.
#[local] Hint Resolve monotone_assign_trial : mono.

Lemma monotone_assign_to_gpu av : respects grows (assign_to_gpu av).
Proof. unfold assign_to_gpu. mono. Qed.
#[local] Hint Resolve monotone_assign_to_gpu : mono.

Lemma monotone_round_robin env gpus cpus tp :
  respects grows (round_robin_strategy env gpus cpus tp).
Proof. unfold round_robin_strategy, get_available_slots. mono. Qed.

Lemma monotone_gpu_first env gpus cpus :
  respects grows (gpu_first_strategy env gpus cpus).
Proof.
  unfold gpu_first_strategy, get_available_slots, get_active_trials, send_signal.
  mono.
Qed.

Lemma monotone_update_phase : respects grows update_phase.
Proof. unfold update_phase. mono. Qed.

Lemma monotone_log_pending : respects grows log_pending.
Proof. unfold log_pending. mono. Qed.

Lemma monotone_keep f : respects grows (keep f).
Proof. unfold keep. mono. Qed.
#[local] Hint Resolve monotone_round_robin monotone_gpu_first monotone_update_phase
  monotone_log_pending monotone_keep : mono.

Lemma monotone_assign_trial_to_worker env :
  respects grows (assign_trial_to_worker env).
Proof. unfold assign_trial_to_worker. mono. Qed.

Lemma monotone_route env l : respects grows (route env l).
Proof. unfold route. mono. Qed.
#[local] Hint Resolve monotone_assign_trial_to_worker monotone_route : mono.

Lemma monotone_handle_done_future env f : respects grows (handle_done_future env f).
Proof. unfold handle_done_future, handle_done_try. mono. Qed.
#[local] Hint Resolve monotone_handle_done_future : mono.

Lemma monotone_handle_done_futures env fs :
  respects grows (handle_done_futures env fs).
Proof. unfold handle_done_futures. mono. Qed.
#[local] Hint Resolve monotone_handle_done_futures : mono.

Lemma monotone_tick env : respects grows (tick env).
Proof. unfold tick. mono. Qed.

Ltac logs :=
  walk only_logs_refl only_logs_trans
    ltac:(first [ apply respects_modify; intros ?;
                  first [apply only_logs_trace | apply only_logs_phase] ]).

Lemma update_phase_only_logs : respects only_logs update_phase.
Proof. unfold update_phase, emit. logs. Qed.

Lemma log_pending_only_logs : respects only_logs log_pending.
Proof. unfold log_pending, emit. logs. Qed.

Lemma prelude_only_logs : respects only_logs (update_phase ;; log_pending).
Proof.
  apply (respects_bind _ only_logs_trans).
  - apply update_phase_only_logs.
  - intros _. apply log_pending_only_logs.
Qed.

Lemma later_grows s s' : later s s' -> grows s s'.
Proof.
  induction 1 as [|env s' _ IH].
  - apply grows_refl.
  - eapply grows_trans; [exact IH | apply monotone_tick].
Qed.

Lemma selected_strategy_spec s :
  (selected_strategy s = RoundRobin
   <-> Py.len (completed_trial_states s)
       <= trial_state_nums s - 3 * Py.len (gpu_workers s))
  /\ (selected_strategy s = GpuFirst
      <-> Py.len (completed_trial_states s)
          > trial_state_nums s - 3 * Py.len (gpu_workers s)).
Proof.
  unfold selected_strategy.
  destruct (Z.leb_spec (Py.len (completed_trial_states s))
              (trial_state_nums s - Py.len (gpu_workers s) * 3)).
  - split; split; intros; try reflexivity; try lia; discriminate.
  - split; split; intros; try reflexivity; try lia; discriminate.
Qed.

Lemma gpu_first_stays s s' :
  grows s s' -> selected_strategy s = GpuFirst -> selected_strategy s' = GpuFirst.
Proof.
  intros (N & G & l & C) H.
  apply selected_strategy_spec in H. apply selected_strategy_spec.
  rewrite N, G, C. unfold Py.len in *. rewrite length_app. lia.
Qed.

(** ** Which strategy a tick uses *)

Lemma assign_trial_to_worker_dispatch env s :
  dispatches_with (selected_strategy s) env s.
Proof.
  unfold dispatches_with. cbv zeta.
  destruct (prelude_only_logs s) as (p & l & E).
  assert (Sel : selected_strategy (snd ((update_phase ;; log_pending) s))
                = selected_strategy s) by (rewrite E; reflexivity).
  unfold assign_trial_to_worker.
  change ((update_phase ;; log_pending ;; ?k) s)
    with (k (snd ((update_phase ;; log_pending) s))).
  unfold bind at 1. unfold gets at 1 2. cbn [fst snd].
  rewrite Sel. destruct (selected_strategy s); reflexivity.
Qed.

(** C8.  A tick dispatches with the strategy that the test of lines
    241-244 selects: round-robin exactly when the number of completed
    trials is at most [trial_state_nums] minus three times the number of
    GPU workers, gpu-first exactly when it is greater.  Along a run the
    completed list only grows, so once gpu-first is selected it is selected
    at every later tick. *)
Theorem strategy_switchover :
  (forall env s, dispatches_with (selected_strategy s) env s)
  /\ (forall s, selected_strategy s = RoundRobin
                <-> Py.len (completed_trial_states s)
                    <= trial_state_nums s - 3 * Py.len (gpu_workers s))
  /\ (forall s, selected_strategy s = GpuFirst
                <-> Py.len (completed_trial_states s)
                    > trial_state_nums s - 3 * Py.len (gpu_workers s))
  /\ (forall s s', later s s' ->
        exists l, completed_trial_states s' = completed_trial_states s ++ l)
  /\ (forall s s', later s s' ->
        selected_strategy s = GpuFirst -> selected_strategy s' = GpuFirst).
Proof.
  split; [exact assign_trial_to_worker_dispatch|].
  split; [intros s; apply selected_strategy_spec|].
  split; [intros s; apply selected_strategy_spec|].
  split.
  - intros s s' H. apply later_grows in H. apply H.
  - intros s s' H. apply gpu_first_stays. apply later_grows. exact H.
Qed.

Lemma strategy_switchover_witness :
  selected_strategy late = GpuFirst
  /\ later late (snd (tick all_free (snd (tick all_free late))))
  /\ selected_strategy (snd (tick all_free (snd (tick all_free late)))) = GpuFirst.
Proof.
  assert (L : later late (snd (tick all_free (snd (tick all_free late)))))
    by (do 2 apply later_tick; apply later_now).
  split; [reflexivity|]. split; [exact L|].
  exact (proj2 (proj2 (proj2 (proj2 strategy_switchover))) _ _ L eq_refl).
Defined.

(** ** Which handles a tick keeps *)

Lemma same_running_refl s : same_running s s.
Proof. reflexivity. Qed.

Lemma same_running_trans s1 s2 s3 :
  same_running s1 s2 -> same_running s2 s3 -> same_running s1 s3.
Proof. unfold same_running. congruence. Qed.

Ltac still :=
  walk same_running_refl same_running_trans
    ltac:(apply respects_modify; intros ?; reflexivity).

Lemma round_robin_same_running env gpus cpus tp :
  respects same_running (round_robin_strategy env gpus cpus tp).
Proof.
  unfold round_robin_strategy, assign_to_gpu, get_available_slots, assign_trial, emit.
  still.
Qed.

Lemma gpu_first_same_running env gpus cpus :
  respects same_running (gpu_first_strategy env gpus cpus).
Proof.
  unfold gpu_first_strategy, assign_to_gpu, get_available_slots, get_active_trials,
    send_signal, assign_trial, emit.
  still.
Qed.

Lemma prelude_same_running : respects same_running (update_phase ;; log_pending).
Proof. unfold update_phase, log_pending, emit. still. Qed.

(** In a tick that selects round-robin, [running_futures] grows by the
    handle that [round_robin_strategy] returns, if it returns one, and by
    nothing else. *)
Lemma round_robin_tick_keeps_handle env s :
  selected_strategy s = RoundRobin ->
  let s1 := snd ((update_phase ;; log_pending) s) in
  let r := round_robin_strategy env (gpu_workers s1) (cpu_workers s1)
             (trial_phase s1) s1 in
  running_futures (snd (assign_trial_to_worker env s))
  = running_futures s ++ match fst r with Some f => [f] | None => [] end.
Proof.
  intros Sel s1 r.
  pose proof (assign_trial_to_worker_dispatch env s) as D.
  rewrite Sel in D. unfold dispatches_with in D. cbv zeta in D. rewrite D.
  fold s1. unfold bind at 1. cbv zeta. fold r.
  assert (E : running_futures (snd r) = running_futures s).
  { unfold r. rewrite round_robin_same_running. apply prelude_same_running. }
  destruct (fst r); cbn [keep modify ret snd running_futures set_running].
  - rewrite E. reflexivity.
  - rewrite E, app_nil_r. reflexivity.
Qed.

Lemma round_robin_tick_keeps_handle_witness :
  running_futures (snd (assign_trial_to_worker all_free early)) = [0%nat].
Proof.
  apply (round_robin_tick_keeps_handle all_free early). reflexivity.
Defined.

(** In the gpu-first branch no handle is ever kept, returned or not. *)
Lemma gpu_first_tick_keeps_nothing env s :
  selected_strategy s = GpuFirst ->
  running_futures (snd (assign_trial_to_worker env s)) = running_futures s.
Proof.
  intros Sel.
  pose proof (assign_trial_to_worker_dispatch env s) as D.
  rewrite Sel in D. unfold dispatches_with in D. cbv zeta in D. rewrite D.
  unfold bind at 1. cbv zeta. cbn [keep ret snd].
  rewrite gpu_first_same_running. apply prelude_same_running.
Qed.

(** C1, where the code departs from it.  In [late] (two trials, one GPU
    worker, nothing completed) the tick selects gpu-first; the strategy
    assigns trial 0 to the GPU worker and returns the handle 0; after
    [assign_trial_to_worker] the trial has left the pending queue, the
    assignment is in the trace, and [running_futures] is still empty. *)
Theorem gpu_first_handle_is_dropped :
  selected_strategy late = GpuFirst
  /\ (let s1 := snd ((update_phase ;; log_pending) late) in
      fst (gpu_first_strategy all_free (gpu_workers s1) (cpu_workers s1) s1)
      = Some 0%nat)
  /\ pending_trial_states (snd (assign_trial_to_worker all_free late)) = [1%nat]
  /\ events (snd (assign_trial_to_worker all_free late))
     = [GetTrialProgress; Log INFO (MsgPendingList 2 [0; 1]);
        GetAvailableSlots 0%nat;
        AssignTrial 0%nat (trial 0 0 0.1%float PENDING) 0%nat]
  /\ running_futures (snd (assign_trial_to_worker all_free late)) = [].
Proof. repeat split; vm_compute; reflexivity. Qed.

(** ** The stores *)

Lemma read_write_same {A} (d v : A) (h : list A) (l : loc) :
  (l < length h)%nat -> Store.read d (Store.write l v h) l = v.
Proof.
  revert l. induction h as [|x h IH]; intros l Hl; simpl in Hl; [lia|].
  destruct l as [|l]; simpl; [reflexivity|]. apply IH. lia.
Qed.

Lemma write_out_of_range {A} (v : A) (h : list A) (l : loc) :
  (length h <= l)%nat -> Store.write l v h = h.
Proof.
  revert l. induction h as [|x h IH]; intros l Hl; [destruct l; reflexivity|].
  simpl in Hl. destruct l as [|l]; [lia|]. simpl. rewrite IH; [reflexivity | lia].
Qed.

Lemma write_length {A} (v : A) (h : list A) (l : loc) :
  length (Store.write l v h) = length h.
Proof.
  revert l. induction h as [|x h IH]; intros l; [destruct l; reflexivity|].
  destruct l as [|l]; simpl; [reflexivity|]. rewrite IH. reflexivity.
Qed.

Lemma read_out_of_range {A} (d : A) (h : list A) (l : loc) :
  (length h <= l)%nat -> Store.read d h l = d.
Proof. intros Hl. apply nth_overflow. exact Hl. Qed.

Lemma read_alloc {A} (d v : A) (h : list A) :
  Store.read d (snd (Store.alloc v h)) (fst (Store.alloc v h)) = v.
Proof.
  unfold Store.alloc, Store.read. cbn [fst snd].
  rewrite app_nth2, Nat.sub_diag by lia. reflexivity.
Qed.

(** ** The quantile and the choice of a donor *)

Lemma insert_length {A K} (ltb : K -> K -> bool) (key : A -> K) x l :
  length (Py.insert ltb key x l) = S (length l).
Proof.
  induction l as [|y l IH]; simpl; [reflexivity|].
  destruct (ltb (key x) (key y)); simpl; [reflexivity|]. rewrite IH. reflexivity.
Qed.

Lemma sorted_length {A K} (ltb : K -> K -> bool) (key : A -> K) l :
  length (Py.sorted ltb key l) = length l.
Proof.
  unfold Py.sorted.
  assert (G : forall acc, length (fold_left (fun acc x => Py.insert ltb key x acc) l acc)
                          = (length l + length acc)%nat).
  { induction l as [|x l IH]; intros acc; simpl; [reflexivity|].
    rewrite IH, insert_length. lia. }
  rewrite G. simpl. lia.
Qed.

Lemma quarter_floor (n : Z) : Qfloor (inject_Z n * (1 # 4)) = n / 4.
Proof. unfold Qfloor, Qmult, inject_Z. simpl. rewrite Z.mul_1_r. reflexivity. Qed.

Lemma upper_quantile_nonempty (r : TrialResult.t) :
  TrialResult.trial_progress r <> [] ->
  snd (TrialResult.get_quantile (1 # 4) r) <> [].
Proof.
  intros Hne. unfold TrialResult.get_quantile. cbv zeta. cbn [snd].
  rewrite quarter_floor.
  set (values := Py.sorted PrimFloat.ltb accuracy (TrialResult.get_trial_progress r)).
  assert (Hlen : length values = length (TrialResult.trial_progress r)).
  { unfold values. rewrite sorted_length. unfold TrialResult.get_trial_progress.
    apply length_map. }
  assert (Hpos : (0 < length values)%nat).
  { rewrite Hlen. destruct (TrialResult.trial_progress r); [congruence | simpl; lia]. }
  destruct (Py.len values / 4 =? 0) eqn:E.
  - intros H. rewrite H in Hpos. simpl in Hpos. lia.
  - apply Z.eqb_neq in E. unfold Py.slice_from, Py.len in *.
    intros H. apply (f_equal (@length _)) in H. rewrite length_skipn in H.
    simpl in H.
    assert (0 <= Z.of_nat (length values) / 4 <= Z.of_nat (length values)).
    { split; [apply Z.div_pos; lia|]. apply Z.div_le_upper_bound; lia. }
    lia.
Qed.

Lemma random_choice_nonempty {A} (draw : nat) (l : list A) :
  l <> [] ->
  exists x, Py.random_choice draw l = Py.Ok x
            /\ nth_error l (draw mod length l) = Some x.
Proof.
  intros Hne. unfold Py.random_choice.
  destruct (nth_error l (draw mod length l)) as [x|] eqn:E; [eauto|].
  apply nth_error_None in E.
  assert (length l <> 0)%nat by (destruct l; [congruence | simpl; lia]).
  pose proof (Nat.mod_upper_bound draw (length l) H). lia.
Qed.

(** Each of the [length l] equally likely draws selects its own position
    of [l]: the choice is uniform over the positions. *)
Lemma random_choice_uniform {A} (l : list A) :
  map (fun d => Py.random_choice d l) (seq 0 (length l)) = map Py.Ok l.
Proof.
  assert (G : map (fun d => match nth_error l d with
                            | Some x => Py.Ok x
                            | None => Py.Raised Py.IndexError
                            end) (seq 0 (length l)) = map Py.Ok l).
  { induction l as [|x l IH]; [reflexivity|].
    cbn [length]. rewrite <- cons_seq, <- seq_shift, map_cons, map_map.
    cbn [nth_error map]. f_equal. exact IH. }
  rewrite <- G. apply map_ext_in. intros d Hd. apply in_seq in Hd.
  unfold Py.random_choice. rewrite Nat.mod_small by lia. reflexivity.
Qed.

(** ** Mutation *)

Lemma mutation_unfold draw ts t donor :
  Py.random_choice draw (snd (get_quantile_trial t)) = Py.Ok donor ->
  let l := hyperparameter donor in
  let t0 := tuner_info (MutationBegins (id ts) (hp_at t (hyperparameter ts))) t in
  let t1 := hp_write l (set_lr (PrimFloat.mul (lr (hp_at t0 l)) 0.8%float) (hp_at t0 l)) t0 in
  let t2 := hp_write l (set_momentum (PrimFloat.mul (momentum (hp_at t1 l)) 1.2%float)
                          (hp_at t1 l)) t1 in
  let ts' := set_checkpoint (checkpoint donor) (set_hyperparameter l ts) in
  mutation draw ts t
  = (Py.Ok ts', tuner_info (MutationEnds (id ts) (iteration ts) (hp_at t2 l)) t2).
Proof.
  intros E. unfold mutation. cbv zeta.
  change (get_quantile_trial (tuner_info ?e t)) with (get_quantile_trial t).
  destruct (get_quantile_trial t) as [lower upper]. cbn [snd] in E. rewrite E.
  reflexivity.
Qed.

Lemma mutated_hyperparameter (t : Tuner) (l : loc) :
  let t1 := hp_write l (set_lr (PrimFloat.mul (lr (hp_at t l)) 0.8%float) (hp_at t l)) t in
  let t2 := hp_write l (set_momentum (PrimFloat.mul (momentum (hp_at t1 l)) 1.2%float)
                          (hp_at t1 l)) t1 in
  lr (hp_at t2 l) = PrimFloat.mul (lr (hp_at t l)) 0.8%float
  /\ momentum (hp_at t2 l) = PrimFloat.mul (momentum (hp_at t l)) 1.2%float.
Proof.
  cbv zeta. unfold hp_at, hp_write. cbn [hyperparameters].
  destruct (Nat.lt_ge_cases l (length (hyperparameters t))) as [Hl | Hl].
  - rewrite (read_write_same _ _ _ l) by (rewrite write_length; exact Hl).
    rewrite (read_write_same _ _ _ l) by exact Hl. split; reflexivity.
  - rewrite (write_out_of_range _ _ l) by (rewrite write_length; exact Hl).
    rewrite (write_out_of_range _ _ l) by exact Hl.
    rewrite (read_out_of_range _ _ l) by exact Hl. split; reflexivity.
Qed.

(** C7.  When the upper list of the 0.25 quantile has an entry to choose
    (it has one as soon as the ledger is not empty,
    [upper_quantile_nonempty]), [mutation] returns [trial_state] with the
    donor's checkpoint and the donor's hyperparameter object, whose [lr] is
    now the donor's former [lr] times 0.8 and whose [momentum] the former
    one times 1.2.  The donor is the entry of the upper list at the
    position drawn, and the draws 0 .. n-1, equally likely, select the n
    positions of that list one each. *)
Theorem mutation_donor_provenance (draw : nat) (ts : TrialState loc) (t : Tuner) :
  let upper := snd (get_quantile_trial t) in
  upper <> [] ->
  exists donor ts' t',
    mutation draw ts t = (Py.Ok ts', t')
    /\ nth_error upper (draw mod length upper) = Some donor
    /\ checkpoint ts' = checkpoint donor
    /\ hyperparameter ts' = hyperparameter donor
    /\ lr (hp_at t' (hyperparameter ts'))
       = PrimFloat.mul (lr (hp_at t (hyperparameter donor))) 0.8%float
    /\ momentum (hp_at t' (hyperparameter ts'))
       = PrimFloat.mul (momentum (hp_at t (hyperparameter donor))) 1.2%float
    /\ map (fun d => Py.random_choice d upper) (seq 0 (length upper))
       = map Py.Ok upper.
Proof.
  intros upper Hup.
  destruct (random_choice_nonempty draw upper Hup) as (donor & Hc & Hn).
  pose proof (mutation_unfold draw ts t donor Hc) as E. cbv zeta in E.
  eexists donor, _, _. split; [exact E|].
  split; [exact Hn|]. split; [reflexivity|]. split; [reflexivity|].
  cbn [hyperparameter set_checkpoint set_hyperparameter].
  pose proof (mutated_hyperparameter
                (tuner_info (MutationBegins (id ts) (hp_at t (hyperparameter ts))) t)
                (hyperparameter donor)) as [Hlr Hmo].
  split; [exact Hlr|]. split; [exact Hmo|].
  apply random_choice_uniform.
Qed.

Lemma mutation_donor_provenance_witness :
  exists ts' t',
    mutation 0 (set_hyperparameter 4%nat (trial 0 2 0.1%float NEED_MUTATION))
      (snd (deserialize (trial 0 2 0.1%float NEED_MUTATION) (tuner_of population4)))
    = (Py.Ok ts', t')
    /\ lr (hp_at t' (hyperparameter ts')) = 0.4%float
    /\ momentum (hp_at t' (hyperparameter ts')) = 0.6%float.
Proof.
  destruct (mutation_donor_provenance 0
              (set_hyperparameter 4%nat (trial 0 2 0.1%float NEED_MUTATION))
              (snd (deserialize (trial 0 2 0.1%float NEED_MUTATION) (tuner_of population4))))
    as (donor & ts' & t' & E & Hn & _ & _ & Hlr & Hmo & _).
  - vm_compute. discriminate.
  - exists ts', t'. split; [exact E|].
    vm_compute in Hn. injection Hn as <-.
    split; [exact Hlr | exact Hmo].
Defined.

Lemma remote_mutation_ok (draw : nat) (v : Snapshot) (t : Tuner) :
  snd (get_quantile_trial t) <> [] ->
  exists m t', remote_mutation draw v t = (Py.Ok m, t').
Proof.
  intros Hne. unfold remote_mutation, deserialize.
  destruct (Store.alloc (hyperparameter v) (hyperparameters t)) as [l h].
  destruct (mutation_donor_provenance draw (set_hyperparameter l v)
              (mkTuner (trial_result t) h (tuner_log t)) Hne)
    as (donor & ts' & t' & E & _).
  rewrite E. eauto.
Qed.

(** C4, where the code departs from it.  The ledger holds four trials;
    trial 1 has the best accuracy and is the donor.  Before the call its
    entry reads lr = 0.5 and momentum = 0.5; after [mutation] on trial 0
    the same entry reads lr = 0.4 and momentum = 0.6, the values handed
    to trial 0. *)
Theorem mutation_rewrites_the_donor :
  let t := tuner_of population4 in
  let r := remote_mutation 0 (trial 0 2 0.1%float NEED_MUTATION) t in
  option_map hyperparameter (ledger_entry t 1)
  = Some (mkHyperparameter 0.5%float 0.5%float 64 O)
  /\ option_map hyperparameter (ledger_entry (snd r) 1)
     = Some (mkHyperparameter 0.4%float 0.6%float 64 O)
  /\ fst r = Py.Ok (set_hyperparameter (mkHyperparameter 0.4%float 0.6%float 64 O)
                      (trial 0 2 0.1%float NEED_MUTATION)).
Proof. repeat split; vm_compute; reflexivity. Qed.

(** ** Completions *)

Lemma store_read_fresh {A} (d v : A) (h : list A) :
  Store.read d (h ++ [v]) (length h) = v.
Proof. unfold Store.read. rewrite app_nth2, Nat.sub_diag by lia. reflexivity. Qed.

Lemma store_write_fresh {A} (v x : A) (h : list A) :
  Store.write (length h) x (h ++ [v]) = h ++ [x].
Proof. induction h as [|y h IH]; simpl; [reflexivity|]. rewrite IH. reflexivity. Qed.

Lemma new_object_run v s :
  new_object v s = (length (objects s), set_objects (objects s ++ [v]) s).
Proof. reflexivity. Qed.

(** Writing a field of the object allocated last. *)
Lemma update_fresh_object (f : Snapshot -> Snapshot) v h s :
  objects s = h ++ [v] ->
  update_object (length h) f s = (tt, set_objects (h ++ [f v]) s).
Proof.
  intros E. unfold update_object, modify, obj. rewrite E.
  rewrite store_read_fresh, store_write_fresh. reflexivity.
Qed.

Lemma obj_fresh v h s : objects s = h ++ [v] -> obj s (length h) = v.
Proof. intros E. unfold obj. rewrite E. apply store_read_fresh. Qed.

Lemma bind_gets {A B} (f : TrialScheduler -> A) (k : A -> M B) s :
  bind (gets f) k s = k (f s) s.
Proof. reflexivity. Qed.

Lemma bind_emit {B} e (k : unit -> M B) s : bind (emit e) k s = k tt (trace [e] s).
Proof. reflexivity. Qed.

Lemma bind_modify {B} f (k : unit -> M B) s : bind (modify f) k s = k tt (f s).
Proof. reflexivity. Qed.

Lemma bind_ret {A B} (a : A) (k : A -> M B) s : bind (ret a) k s = k a s.
Proof. reflexivity. Qed.

Lemma bind_new_object {B} v (k : loc -> M B) s :
  bind (new_object v) k s
  = k (length (objects s)) (set_objects (objects s ++ [v]) s).
Proof. reflexivity. Qed.

Lemma bind_tuner_call {A B} (f : Tuner -> A * Tuner) (k : A -> M B) s :
  bind (tuner_call f) k s = k (fst (f (tuner s))) (set_tuner (snd (f (tuner s))) s).
Proof. reflexivity. Qed.

Lemma bind_update_fresh {B} (f : Snapshot -> Snapshot) (k : unit -> M B) v h s :
  objects s = h ++ [v] ->
  bind (update_object (length h) f) k s = k tt (set_objects (h ++ [f v]) s).
Proof.
  intros E. unfold bind. rewrite (update_fresh_object f v h s E). reflexivity.
Qed.

(** The tail of the [try] (lines 387-389) on the object allocated last. *)
Lemma reset_and_record v h s :
  objects s = h ++ [v] ->
  (update_object (length h) (set_worker_id (-1)) ;;
   update_object (length h) (set_worker_type None) ;;
   snapshot <- gets (fun s => obj s (length h)) ;;
   emit (RecordTrialProgress snapshot) ;;
   tuner_call (fun t => (tt, remote_record_trial_progress snapshot t)) ;;
   ret (Py.Ok tt)) s
  = (Py.Ok tt,
     set_tuner (remote_record_trial_progress (reset v) (tuner s))
       (trace [RecordTrialProgress (reset v)]
          (set_objects (h ++ [reset v]) s))).
Proof.
  intros E.
  unfold bind at 1. rewrite (update_fresh_object _ v h s E). cbn [fst snd].
  unfold bind at 1.
  rewrite (update_fresh_object _ (set_worker_id (-1) v) h) by reflexivity.
  cbn [fst snd].
  unfold bind at 1. unfold gets at 1 2. cbn [fst snd].
  rewrite (obj_fresh (set_worker_type None (set_worker_id (-1) v)) h) by reflexivity.
  reflexivity.
Qed.

Lemma route_terminate env v h s :
  objects s = h ++ [v] -> status v = TERMINATE ->
  exists ids,
    route env (length h) s
    = (Py.Ok (length h),
       trace [Log INFO (MsgTrialDone (worker_id v) (id v) (accuracy v));
              Log INFO (MsgCompletedList ids)]
         (set_completed (completed_trial_states s ++ [length h]) s)).
Proof.
  intros E Hst. eexists. unfold route.
  rewrite bind_gets, (obj_fresh v h s E), Hst.
  unfold append_completed. rewrite bind_modify, bind_gets, bind_emit, bind_emit.
  rewrite (trace_app [_] [_]).
  change (obj (set_completed ?c s)) with (obj s).
  rewrite (obj_fresh v h s E). reflexivity.
Qed.

Lemma route_pause env v h s :
  objects s = h ++ [v] -> status v = PAUSE ->
  route env (length h) s
  = (Py.Ok (length h),
     trace [Log INFO (MsgTrialReturned (worker_id v) (id v) (iteration v) (accuracy v))]
       (set_pending (pending_trial_states s ++ [length h])
          (set_objects (h ++ [set_status PENDING v]) s))).
Proof.
  intros E Hst. unfold route.
  rewrite bind_gets, (obj_fresh v h s E), Hst.
  rewrite (bind_update_fresh _ _ v h s E).
  unfold append_pending. rewrite bind_modify, bind_gets, bind_emit.
  rewrite (obj_fresh (set_status PENDING v) h) by reflexivity.
  reflexivity.
Qed.

Lemma route_pending env v h s :
  objects s = h ++ [v] -> status v = PENDING ->
  route env (length h) s
  = (Py.Ok (length h),
     trace [Log WARNING (MsgCollision (id v))]
       (set_pending (pending_trial_states s ++ [length h]) s)).
Proof.
  intros E Hst. unfold route.
  rewrite bind_gets, (obj_fresh v h s E), Hst.
  unfold append_pending. rewrite bind_modify, bind_gets, bind_emit.
  change (obj (set_pending ?c s)) with (obj s).
  rewrite (obj_fresh v h s E). reflexivity.
Qed.

Lemma route_running env v h s :
  objects s = h ++ [v] -> status v = RUNNING ->
  route env (length h) s = (Py.Ok (length h), s).
Proof.
  intros E Hst. unfold route.
  rewrite bind_gets, (obj_fresh v h s E), Hst. reflexivity.
Qed.

Lemma length_snoc {A} (h : list A) (v : A) : length (h ++ [v]) = S (length h).
Proof. rewrite length_app. simpl. lia. Qed.

Lemma route_need_mutation env v h s :
  objects s = h ++ [v] -> status v = NEED_MUTATION ->
  route env (length h) s
  = let r := remote_mutation (draw env) v (tuner s) in
    let s1 := set_tuner (snd r) (trace [Mutation v] s) in
    match fst r with
    | Py.Raised e => (Py.Raised e, s1)
    | Py.Ok m =>
        (Py.Ok (S (length h)),
         set_pending (pending_trial_states s ++ [S (length h)])
           (set_objects ((h ++ [v]) ++ [set_status PENDING m]) s1))
    end.
Proof.
  intros E Hst. unfold route.
  rewrite bind_gets, (obj_fresh v h s E), Hst.
  rewrite bind_gets, (obj_fresh v h s E), bind_emit, bind_tuner_call.
  change (tuner (trace [Mutation v] s)) with (tuner s).
  cbv zeta.
  destruct (remote_mutation (draw env) v (tuner s)) as [[m | e] t1]; cbn [fst snd].
  - rewrite bind_new_object.
    change (objects (set_tuner t1 (trace [Mutation v] s))) with (objects s).
    rewrite E, length_snoc. rewrite <- (length_snoc h v).
    rewrite (bind_update_fresh _ _ m (h ++ [v])) by reflexivity.
    unfold append_pending. rewrite bind_modify. reflexivity.
  - reflexivity.
Qed.

Lemma handle_done_try_ok env future v s s1 l v1 h :
  resolve env future = Py.Ok v ->
  route env (length (objects s)) (set_objects (objects s ++ [v]) s) = (Py.Ok l, s1) ->
  objects s1 = h ++ [v1] -> l = length h ->
  handle_done_try env future s
  = (Py.Ok tt, set_tuner (remote_record_trial_progress (reset v1) (tuner s1))
           (trace [RecordTrialProgress (reset v1)]
              (set_objects (h ++ [reset v1]) s1))).
Proof.
  intros Hres Hr Hobj ->. unfold handle_done_try. rewrite Hres.
  rewrite bind_new_object. unfold bind at 1. rewrite Hr. cbn [fst snd].
  apply (reset_and_record v1 h s1 Hobj).
Qed.

Lemma handle_done_try_raised env future v s s1 e :
  resolve env future = Py.Ok v ->
  route env (length (objects s)) (set_objects (objects s ++ [v]) s) = (Py.Raised e, s1) ->
  handle_done_try env future s = (Py.Raised e, s1).
Proof.
  intros Hres Hr. unfold handle_done_try. rewrite Hres.
  rewrite bind_new_object. unfold bind at 1. rewrite Hr. reflexivity.
Qed.

Lemma handle_done_try_unresolved env future s e :
  resolve env future = Py.Raised e ->
  handle_done_try env future s = (Py.Raised e, s).
Proof. intros Hres. unfold handle_done_try. rewrite Hres. reflexivity. Qed.

Lemma handle_done_future_ok env future s s' :
  handle_done_try env future s = (Py.Ok tt, s') ->
  handle_done_future env future s = (tt, s').
Proof. intros H. unfold handle_done_future, bind. rewrite H. reflexivity. Qed.

Lemma handle_done_future_raised env future s s' e :
  handle_done_try env future s = (Py.Raised e, s') ->
  handle_done_future env future s = (tt, trace [Log ERROR (MsgFutureFailed e)] s').
Proof. intros H. unfold handle_done_future, bind. rewrite H. reflexivity. Qed.

Lemma handle_done_try_routed env future v s s1 l v1 h :
  resolve env future = Py.Ok v ->
  route env (length (objects s)) (set_objects (objects s ++ [v]) s) = (Py.Ok l, s1) ->
  objects s1 = h ++ [v1] -> l = length h ->
  handle_done_future env future s
  = (tt, set_tuner (remote_record_trial_progress (reset v1) (tuner s1))
           (trace [RecordTrialProgress (reset v1)]
              (set_objects (h ++ [reset v1]) s1))).
Proof.
  intros Hres Hr Hobj Hl. apply handle_done_future_ok.
  eapply handle_done_try_ok; eassumption.
Qed.

(** C9.  A handle that resolves to a [TrialState] is routed by its status.
    TERMINATE: the object joins the completed list.  NEED_MUTATION (with a
    donor to choose, as there is once the ledger holds the population):
    the value goes through [Tuner.mutation], what comes back gets status
    PENDING and joins the pending queue.  PAUSE: status PENDING, joins the pending
    queue, iteration and accuracy as returned.  PENDING: joins the pending
    queue, with a warning.  In each case the routed object then has
    [worker_id] -1 and no [worker_type], and that snapshot is recorded by
    the tuner. *)
Theorem completion_routing env future v s :
  resolve env future = Py.Ok v ->
  let s' := snd (handle_done_future env future s) in
  let l := length (objects s) in
  match status v with
  | TERMINATE =>
      completed_trial_states s' = completed_trial_states s ++ [l]
      /\ pending_trial_states s' = pending_trial_states s
      /\ obj s' l = reset v
      /\ tuner s' = remote_record_trial_progress (reset v) (tuner s)
      /\ exists ids,
           events s' = events s
             ++ [Log INFO (MsgTrialDone (worker_id v) (id v) (accuracy v));
                 Log INFO (MsgCompletedList ids);
                 RecordTrialProgress (reset v)]
  | NEED_MUTATION =>
      snd (get_quantile_trial (tuner s)) <> [] ->
      exists m t1,
        remote_mutation (draw env) v (tuner s) = (Py.Ok m, t1)
        /\ pending_trial_states s' = pending_trial_states s ++ [S l]
        /\ completed_trial_states s' = completed_trial_states s
        /\ obj s' (S l) = reset (set_status PENDING m)
        /\ tuner s' = remote_record_trial_progress (reset (set_status PENDING m)) t1
        /\ events s' = events s
             ++ [Mutation v; RecordTrialProgress (reset (set_status PENDING m))]
  | PAUSE =>
      pending_trial_states s' = pending_trial_states s ++ [l]
      /\ completed_trial_states s' = completed_trial_states s
      /\ obj s' l = reset (set_status PENDING v)
      /\ iteration (obj s' l) = iteration v
      /\ accuracy (obj s' l) = accuracy v
      /\ tuner s' = remote_record_trial_progress (reset (set_status PENDING v)) (tuner s)
      /\ events s' = events s
           ++ [Log INFO (MsgTrialReturned (worker_id v) (id v) (iteration v)
                           (accuracy v));
               RecordTrialProgress (reset (set_status PENDING v))]
  | PENDING =>
      pending_trial_states s' = pending_trial_states s ++ [l]
      /\ completed_trial_states s' = completed_trial_states s
      /\ obj s' l = reset v
      /\ tuner s' = remote_record_trial_progress (reset v) (tuner s)
      /\ events s' = events s
           ++ [Log WARNING (MsgCollision (id v)); RecordTrialProgress (reset v)]
  | RUNNING => True
  end.
Proof.
  intros Hres s' l.
  set (s0 := set_objects (objects s ++ [v]) s).
  assert (E0 : objects s0 = objects s ++ [v]) by reflexivity.
  destruct (status v) eqn:Hst.
  - (* PENDING *)
    pose proof (route_pending env v (objects s) s0 E0 Hst) as Hr.
    pose proof (handle_done_try_routed env future v s _ _ v (objects s) Hres Hr
                  eq_refl eq_refl) as H.
    unfold s'. rewrite H. cbn [snd].
    repeat split; try reflexivity.
    + unfold obj. cbn [objects set_tuner trace set_events set_objects].
      apply store_read_fresh.
    + unfold trace. cbn. rewrite <- app_assoc. reflexivity.
  - exact I.
  - (* PAUSE *)
    pose proof (route_pause env v (objects s) s0 E0 Hst) as Hr.
    pose proof (handle_done_try_routed env future v s _ _ (set_status PENDING v)
                  (objects s) Hres Hr eq_refl eq_refl) as H.
    unfold s'. rewrite H. cbn [snd].
    match goal with |- context [obj ?S l] =>
      assert (O : obj S l = reset (set_status PENDING v))
        by (unfold obj; cbn [objects set_tuner trace set_events set_objects];
            apply store_read_fresh)
    end.
    rewrite !O.
    repeat split; try reflexivity.
    + unfold trace. cbn. rewrite <- app_assoc. reflexivity.
  - (* NEED_MUTATION *)
    intros Hne.
    destruct (remote_mutation_ok (draw env) v (tuner s) Hne) as (m & t1 & Em).
    exists m, t1. split; [exact Em|].
    pose proof (route_need_mutation env v (objects s) s0 E0 Hst) as Hr.
    cbv zeta in Hr. change (tuner s0) with (tuner s) in Hr. rewrite Em in Hr.
    cbn [fst snd] in Hr.
    pose proof (handle_done_try_routed env future v s _ _ (set_status PENDING m)
                  (objects s ++ [v]) Hres Hr eq_refl (eq_sym (length_snoc _ _))) as H.
    unfold s'. rewrite H. cbn [snd].
    repeat split; try reflexivity.
    + unfold obj. cbn [objects set_tuner trace set_events set_objects].
      unfold l. rewrite <- (length_snoc (objects s) v). apply store_read_fresh.
    + unfold trace. cbn. rewrite <- app_assoc. reflexivity.
  - (* TERMINATE *)
    destruct (route_terminate env v (objects s) s0 E0 Hst) as (ids & Hr).
    pose proof (handle_done_try_routed env future v s _ _ v (objects s) Hres Hr
                  eq_refl eq_refl) as H.
    unfold s'. rewrite H. cbn [snd].
    repeat split; try reflexivity.
    + unfold obj. cbn [objects set_tuner trace set_events set_objects].
      apply store_read_fresh.
    + exists ids. unfold trace. cbn. rewrite <- app_assoc. reflexivity.
Qed.

Lemma completion_routing_witness :
  (pending_trial_states
     (snd (handle_done_future (answers (Py.Ok (trial 1 3 0.5%float PAUSE))) 0%nat early))
   = [0; 1; 2; 3; 4]%nat
   /\ iteration (obj (snd (handle_done_future
                             (answers (Py.Ok (trial 1 3 0.5%float PAUSE))) 0%nat early))
                     4%nat) = 3)
  /\ (exists m t1,
        remote_mutation 0 (trial 0 2 0.1%float NEED_MUTATION) (tuner early) = (Py.Ok m, t1)
        /\ pending_trial_states
             (snd (handle_done_future
                     (answers (Py.Ok (trial 0 2 0.1%float NEED_MUTATION))) 0%nat early))
           = [0; 1; 2; 3; 5]%nat).
Proof.
  split.
  - pose proof (completion_routing (answers (Py.Ok (trial 1 3 0.5%float PAUSE)))
                  0%nat (trial 1 3 0.5%float PAUSE) early eq_refl) as H.
    cbv zeta in H. cbn [status trial] in H.
    destruct H as (Hp & _ & _ & Hi & _).
    split; [exact Hp | exact Hi].
  - pose proof (completion_routing (answers (Py.Ok (trial 0 2 0.1%float NEED_MUTATION)))
                  0%nat (trial 0 2 0.1%float NEED_MUTATION) early eq_refl) as H.
    cbv zeta in H. cbn [status trial] in H.
    destruct H as (m & t1 & Em & Hp & _).
    + vm_compute. discriminate.
    + exists m, t1. split; [exact Em | exact Hp].
Defined.

(** C5, as the code has it.  A handle that resolves to a [TrialState]
    with status RUNNING raises nothing: the object joins neither the
    pending queue nor the completed list, it gets [worker_id] -1 and no
    [worker_type], the tuner records that snapshot, no log record is
    written, and the scheduler goes on. *)
Theorem running_completion_is_dropped env future v s :
  resolve env future = Py.Ok v -> status v = RUNNING ->
  let s' := snd (handle_done_future env future s) in
  fst (handle_done_try env future s) = Py.Ok tt
  /\ pending_trial_states s' = pending_trial_states s
  /\ completed_trial_states s' = completed_trial_states s
  /\ running_futures s' = running_futures s
  /\ obj s' (length (objects s)) = reset v
  /\ tuner s' = remote_record_trial_progress (reset v) (tuner s)
  /\ events s' = events s ++ [RecordTrialProgress (reset v)].
Proof.
  intros Hres Hst s'.
  pose proof (route_running env v (objects s) (set_objects (objects s ++ [v]) s)
                eq_refl Hst) as Hr.
  pose proof (handle_done_try_ok env future v s _ _ v (objects s) Hres Hr
                eq_refl eq_refl) as Ht.
  unfold s'. rewrite (handle_done_future_ok _ _ _ _ Ht), Ht. cbn [fst snd].
  repeat split; try reflexivity.
  unfold obj. cbn [objects set_tuner trace set_events set_objects].
  apply store_read_fresh.
Qed.

Lemma running_completion_is_dropped_witness :
  pending_trial_states
    (snd (handle_done_future (answers (Py.Ok (trial 1 3 0.5%float RUNNING))) 0%nat early))
  = [0; 1; 2; 3]%nat
  /\ completed_trial_states
       (snd (handle_done_future (answers (Py.Ok (trial 1 3 0.5%float RUNNING))) 0%nat early))
     = [].
Proof.
  destruct (running_completion_is_dropped
              (answers (Py.Ok (trial 1 3 0.5%float RUNNING))) 0%nat
              (trial 1 3 0.5%float RUNNING) early eq_refl eq_refl)
    as (_ & Hp & Hc & _).
  split; [exact Hp | exact Hc].
Defined.

(** C5 as stated fails: in [early], a handle resolves to trial 1 with
    status RUNNING; the [try] ends without an exception, nothing is logged,
    the trial is on no queue, and a second handle of the same batch is
    still routed. *)
Lemma running_completion_does_not_abort :
  let env := answers (Py.Ok (trial 1 3 0.5%float RUNNING)) in
  status (trial 1 3 0.5%float RUNNING) = RUNNING
  /\ fst (handle_done_try env 0%nat early) = Py.Ok tt
  /\ events (snd (handle_done_futures env [0%nat] early))
     = [RecordTrialProgress (trial 1 3 0.5%float RUNNING)]
  /\ pending_trial_states (snd (handle_done_futures env [0%nat] early)) = [0; 1; 2; 3]%nat
  /\ completed_trial_states (snd (handle_done_futures env [0%nat] early)) = []
  /\ length (filter (fun e => match e with RecordTrialProgress _ => true | _ => false end)
               (events (snd (handle_done_futures env [0%nat; 1%nat] early)))) = 2%nat.
Proof. repeat split; vm_compute; reflexivity. Qed.

(** ** The run loop *)

Lemma run_unfold envs s :
  run envs s
  = let r := run_loop envs (trace [Log INFO MsgTrainingStarts] s) in
    match fst r with
    | Unfinished => (None, snd r)
    | ConditionFalse | Break =>
        (Some tt, trace [PrintIterationCount (iteration_counts (snd r));
                         Log INFO MsgAllTrialsDone] (snd r))
    end.
Proof.
  unfold run. rewrite bind_emit. unfold bind at 1. cbv zeta.
  destruct (fst (run_loop envs (trace [Log INFO MsgTrainingStarts] s)));
    try reflexivity;
    unfold print_iteration_count, bind, gets, emit, modify, ret; cbn [fst snd];
    rewrite (trace_app [_] [_]); reflexivity.
Qed.

Lemma tick_cases env s :
  let s1 := snd (assign_trial_to_worker env s) in
  if is_empty (running_futures s1) && is_empty (pending_trial_states s1)
  then tick env s = (true, s1)
  else fst (tick env s) = false.
Proof.
  cbv zeta.
  destruct (is_empty _ && is_empty _) eqn:Ee;
    unfold tick; unfold bind at 1; cbv zeta; rewrite bind_gets, Ee;
    [reflexivity | unfold bind; reflexivity].
Qed.

Lemma tick_break env s :
  fst (tick env s) = true ->
  running_futures (snd (tick env s)) = []
  /\ pending_trial_states (snd (tick env s)) = [].
Proof.
  pose proof (tick_cases env s) as C. cbv zeta in C.
  destruct (is_empty _ && is_empty _) eqn:Ee.
  - intros _. rewrite C. cbn [snd]. apply andb_prop in Ee. destruct Ee as [E1 E2].
    destruct (running_futures _); [|discriminate E1].
    destruct (pending_trial_states _); [|discriminate E2]. auto.
  - rewrite C. discriminate.
Qed.

Lemma run_loop_exits envs s :
  let r := run_loop envs s in
  (fst r = ConditionFalse ->
     trial_state_nums (snd r) <= Py.len (completed_trial_states (snd r)))
  /\ (fst r = Break ->
        running_futures (snd r) = [] /\ pending_trial_states (snd r) = []).
Proof.
  revert s. induction envs as [|env envs IH]; intros s; cbn [run_loop].
  - rewrite bind_gets.
    destruct (Z.ltb_spec (Py.len (completed_trial_states s)) (trial_state_nums s));
      cbn [ret fst snd]; split; intros H0; try discriminate H0. lia.
  - rewrite bind_gets.
    destruct (Z.ltb_spec (Py.len (completed_trial_states s)) (trial_state_nums s)).
    + assert (U : (broke <- tick env ;;
                   if (broke : bool) then ret Break else run_loop envs) s
                  = if fst (tick env s) then (Break, snd (tick env s))
                    else run_loop envs (snd (tick env s))).
      { unfold bind. destruct (fst (tick env s)); reflexivity. }
      rewrite U. destruct (fst (tick env s)) eqn:Eb.
      * cbn [fst snd]. split; intros H0; [discriminate H0|].
        apply tick_break. exact Eb.
      * apply IH.
    + cbn [ret fst snd]. split; intros H0; try discriminate H0. lia.
Qed.

(** Whichever way the [while] of [run] is left, by its condition or by the
    [break] of line 277 (both lists empty), [run] then prints the iteration
    counts, logs that all trials are done and returns; the number of
    completed trials plays no part.  When the condition ends the loop the
    population is complete; after the [break] nothing is known of it. *)
Theorem run_reports_completion_on_every_exit envs s :
  let r := run_loop envs (trace [Log INFO MsgTrainingStarts] s) in
  (fst r <> Unfinished ->
     run envs s
     = (Some tt, trace [PrintIterationCount (iteration_counts (snd r));
                        Log INFO MsgAllTrialsDone] (snd r)))
  /\ (fst r = ConditionFalse ->
        trial_state_nums (snd r) <= Py.len (completed_trial_states (snd r)))
  /\ (fst r = Break ->
        running_futures (snd r) = [] /\ pending_trial_states (snd r) = []).
Proof.
  intros r. split; [|apply run_loop_exits].
  intros Hne. rewrite run_unfold. cbv zeta. fold r.
  destruct (fst r); [reflexivity | reflexivity | congruence].
Qed.

Lemma run_reports_completion_witness :
  run [answers (Py.Raised (Py.RayTaskError 1)); answers (Py.Raised (Py.RayTaskError 1))]
      cpu_only
  = (Some tt,
     trace [PrintIterationCount []; Log INFO MsgAllTrialsDone]
       (snd (run_loop
               [answers (Py.Raised (Py.RayTaskError 1));
                answers (Py.Raised (Py.RayTaskError 1))]
               (trace [Log INFO MsgTrainingStarts] cpu_only)))).
Proof.
  apply (proj1 (run_reports_completion_on_every_exit
                  [answers (Py.Raised (Py.RayTaskError 1));
                   answers (Py.Raised (Py.RayTaskError 1))] cpu_only)).
  vm_compute. discriminate.
Defined.

(** C3, where the code departs from it.  One trial on one CPU worker, and
    the [ray.get] of the trial's handle raises.  The first tick assigns the
    trial and logs the failed handle, so the trial is in neither list; the
    second tick finds [running_futures] and the pending queue empty and
    takes the [break].  [run] then returns normally, having logged that all
    trials are done, with no trial completed out of one: the exit is
    neither detected nor reported as a failed run, and the only error in
    the log is the failed handle. *)
Theorem lost_trial_is_reported_as_completion :
  let envs := [answers (Py.Raised (Py.RayTaskError 1));
               answers (Py.Raised (Py.RayTaskError 1))] in
  fst (run_loop envs (trace [Log INFO MsgTrainingStarts] cpu_only)) = Break
  /\ Py.len (completed_trial_states (snd (run envs cpu_only)))
     < trial_state_nums (snd (run envs cpu_only))
  /\ trial_state_nums (snd (run envs cpu_only)) = 1
  /\ completed_trial_states (snd (run envs cpu_only)) = []
  /\ pending_trial_states (snd (run envs cpu_only)) = []
  /\ running_futures (snd (run envs cpu_only)) = []
  /\ fst (run envs cpu_only) = Some tt
  /\ events (snd (run envs cpu_only))
     = [Log INFO MsgTrainingStarts;
        GetTrialProgress; Log INFO (MsgPendingList 1 [0]);
        GetAvailableSlots 1%nat;
        AssignTrial 1%nat (trial 0 0 0.1%float PENDING) 0%nat;
        Log ERROR (MsgFutureFailed (Py.RayTaskError 1));
        GetTrialProgress;
        PrintIterationCount []; Log INFO MsgAllTrialsDone].
Proof. repeat split; vm_compute; reflexivity. Qed.

(** ** The strategies on the scenarios *)

Lemma round_robin_dispatch_witness :
  (exists t,
     first_max (fun l => iteration (obj early l))
       (filter (may_run_on_cpu (trial_phase early) early) (pending_trial_states early)) t
     /\ fst (round_robin_strategy all_free [0%nat] [1%nat] (trial_phase early) early)
        = Some 0%nat
     /\ events (snd (round_robin_strategy all_free [0%nat] [1%nat] (trial_phase early)
                       early))
        = [GetAvailableSlots 1%nat; AssignTrial 1%nat (obj early t) 0%nat])
  /\ (exists w t,
        first_min (fun l => iteration (obj early l)) (pending_trial_states early) t
        /\ events (snd (round_robin_strategy cpu_busy [0%nat] [1%nat] (trial_phase early)
                          early))
           = [GetAvailableSlots 1%nat; GetAvailableSlots 0%nat;
              AssignTrial w (obj early t) 0%nat]).
Proof.
  assert (Hne : pending_trial_states early <> []) by (vm_compute; discriminate).
  assert (Hc : filter (may_run_on_cpu (trial_phase early) early)
                 (pending_trial_states early) <> []) by (vm_compute; discriminate).
  assert (Hg : filter (has_free_slot cpu_busy) [0%nat] <> [])
    by (vm_compute; discriminate).
  split.
  - destruct (proj1 (round_robin_dispatch all_free [0%nat] [1%nat] (trial_phase early)
                       early Hne) 1%nat [] eq_refl Hc)
      as (t & Hmax & _ & Hf & He).
    exists t. split; [exact Hmax|]. split; [exact Hf | exact He].
  - destruct (proj1 (proj2 (round_robin_dispatch cpu_busy [0%nat] [1%nat]
                              (trial_phase early) early Hne))
                (or_introl eq_refl) Hg)
      as (w & t & _ & Hmin & _ & _ & He).
    exists w, t. split; [exact Hmin | exact He].
Defined.

Lemma round_robin_empty_pending_witness :
  round_robin_strategy all_free [0%nat] [1%nat] (trial_phase late_drained) late_drained
  = (None, late_drained).
Proof.
  apply round_robin_empty_pending_is_idle. reflexivity.
Defined.

Lemma gpu_first_preempts_witness :
  exists w t,
    In t (active_trials gpu_idle w)
    /\ (forall w' t', In w' [1%nat] -> In t' (active_trials gpu_idle w') ->
          iteration t <= iteration t')
    /\ events (snd (gpu_first_strategy gpu_idle [0%nat] [1%nat] late_drained))
       = [GetAvailableSlots 0%nat; GetActiveTrials 1%nat;
          Log INFO (MsgPreempt (id t)); SendSignal w (id t)].
Proof.
  assert (Hg : filter (has_free_slot gpu_idle) [0%nat] <> [])
    by (vm_compute; discriminate).
  destruct (proj2 (gpu_first_preempts_for_a_free_gpu gpu_idle [0%nat] [1%nat]
                     late_drained) Hg eq_refl)
    as (_ & _ & _ & H).
  destruct (H 1%nat (trial 1 0 0.2%float RUNNING)) as (w & t & _ & Ht & Hmin & He).
  - left. reflexivity.
  - right. left. reflexivity.
  - exists w, t. split; [exact Ht|]. split; [exact Hmin | exact He].
Defined.

(** C2 as stated fails: the GPU worker has no free slot while the CPU
    worker trains trials 0 and 1; [gpu_first_strategy] asks the GPU worker
    for its slots and returns, without asking the CPU worker for its
    trials and without any signal. *)
Lemma busy_gpu_means_no_preemption :
  filter (has_free_slot gpu_busy) [0%nat] = []
  /\ active_trials gpu_busy 1%nat
     = [trial 0 1 0.1%float RUNNING; trial 1 0 0.2%float RUNNING]
  /\ gpu_first_strategy gpu_busy [0%nat] [1%nat] late_drained
     = (None, trace [GetAvailableSlots 0%nat] late_drained)
  /\ events (snd (gpu_first_strategy gpu_busy [0%nat] [1%nat] late_drained))
     = [GetAvailableSlots 0%nat].
Proof. repeat split; vm_compute; reflexivity. Qed.

(** * Further properties *)

(** * Further properties *)

(** ** Worker discovery *)

Lemma add_worker_ids cpus gpus address d :
  index d = Z.of_nat (length (found d)) ->
  map Worker.id (found d) = map Z.of_nat (seq 0 (length (found d))) ->
  index (add_worker cpus gpus address d)
  = Z.of_nat (length (found (add_worker cpus gpus address d)))
  /\ map Worker.id (found (add_worker cpus gpus address d))
     = map Z.of_nat (seq 0 (length (found (add_worker cpus gpus address d)))).
Proof.
  intros Hi Hm. unfold add_worker. cbn [index found].
  rewrite length_app. cbn [length]. rewrite Nat.add_1_r. split; [lia|].
  rewrite seq_S, !map_app, <- Hm. cbn [map Worker.id]. rewrite Hi. reflexivity.
Qed.

Lemma visit_ids d node :
  index d = Z.of_nat (length (found d)) ->
  map Worker.id (found d) = map Z.of_nat (seq 0 (length (found d))) ->
  index (visit d node) = Z.of_nat (length (found (visit d node)))
  /\ map Worker.id (found (visit d node))
     = map Z.of_nat (seq 0 (length (found (visit d node)))).
Proof.
  intros Hi Hm. unfold visit.
  destruct (Alive node); [|auto].
  destruct (set_has _ _); [auto|]. cbv zeta. cbn [index found].
  destruct (dict_has "CPU"%string (Resources node)).
  - destruct (add_worker_ids (dict_get_default "CPU"%string (Int 0) (Resources node))
                (Int 0) (NodeManagerAddress node) d Hi Hm) as [Hi1 Hm1].
    destruct (dict_has "GPU"%string (Resources node)); [|auto].
    apply add_worker_ids; assumption.
  - destruct (dict_has "GPU"%string (Resources node)); [|auto].
    apply add_worker_ids; assumption.
Qed.

Lemma discovery_ids nodes d :
  index d = Z.of_nat (length (found d)) ->
  map Worker.id (found d) = map Z.of_nat (seq 0 (length (found d))) ->
  map Worker.id (found (fold_left visit nodes d))
  = map Z.of_nat (seq 0 (length (found (fold_left visit nodes d)))).
Proof.
  revert d. induction nodes as [|node nodes IH]; intros d Hi Hm; cbn [fold_left].
  - exact Hm.
  - destruct (visit_ids d node Hi Hm) as [Hi1 Hm1]. apply IH; assumption.
Qed.

(** X1.  The workers that [generate_all_workers] returns are numbered in
    the order of the list: the worker at position i has [id] i, so ids
    are distinct and without gaps. *)
Theorem generate_all_workers_numbers_in_order (nodes : list Node) :
  map Worker.id (generate_all_workers nodes)
  = map Z.of_nat (seq 0 (length (generate_all_workers nodes))).
Proof. apply discovery_ids; reflexivity. Qed.


Lemma visit_found d node w :
  In w (found (visit d node)) -> In w (found d) \/ made_for node w.
Proof.
  unfold visit. destruct (Alive node) eqn:Ea; [|auto].
  destruct (set_has _ _); [auto|]. cbv zeta. cbn [found].
  assert (Step : forall cpus gpus d0,
            (made_for node (Worker.mk (index d0) cpus gpus
                              (String.append "node:"%string (NodeManagerAddress node))
                              (Int 0) (Int 0))) ->
            In w (found (add_worker cpus gpus (NodeManagerAddress node) d0)) ->
            In w (found d0) \/ made_for node w).
  { intros cpus gpus d0 Hm Hin. unfold add_worker in Hin. cbn [found] in Hin.
    apply in_app_or in Hin. destruct Hin as [Hin | [<- | []]]; auto. }
  destruct (dict_has "CPU"%string (Resources node)) eqn:Ec;
    destruct (dict_has "GPU"%string (Resources node)) eqn:Eg; intros Hin; auto.
  - apply Step in Hin.
    + destruct Hin as [Hin | Hm]; [|auto].
      apply Step in Hin; [exact Hin|].
      unfold made_for. cbn. repeat split; auto.
    + unfold made_for. cbn. repeat split; auto.
  - apply Step in Hin; [exact Hin|]. unfold made_for. cbn. repeat split; auto.
  - apply Step in Hin; [exact Hin|]. unfold made_for. cbn. repeat split; auto.
Qed.

Lemma discovery_found nodes d w :
  In w (found (fold_left visit nodes d)) ->
  In w (found d) \/ exists node, In node nodes /\ made_for node w.
Proof.
  revert d. induction nodes as [|node nodes IH]; intros d Hin; cbn [fold_left] in Hin.
  - auto.
  - apply IH in Hin. destruct Hin as [Hin | (n & Hn & Hm)].
    + apply visit_found in Hin. destruct Hin as [Hin | Hm]; [auto|].
      right. exists node. split; [left; reflexivity | exact Hm].
    + right. exists n. split; [right; exact Hn | exact Hm].
Qed.

(** X2.  Every worker that [generate_all_workers] returns was made for an
    alive node of the list: it is named "node:" followed by that node's
    address, its [calculate_ability] and [used_count] are 0, and it is
    either a CPU worker (the node lists "CPU"; [num_cpus] is that amount
    and [num_gpus] is 0) or a GPU worker (the node lists "GPU"; [num_gpus]
    is that amount and [num_cpus] is 0). *)
Theorem generate_all_workers_provenance (nodes : list Node) (w : Worker.t) :
  In w (generate_all_workers nodes) ->
  exists node, In node nodes /\ made_for node w.
Proof.
  intros Hin. apply discovery_found in Hin. destruct Hin as [[] | H]. exact H.
Qed.

Lemma generate_all_workers_provenance_witness :
  exists node,
    In node three_nodes
    /\ made_for node
         (Worker.mk 1 (Int 0) (Float 1%float) "node:10.0.0.1"%string (Int 0) (Int 0)).
Proof.
  apply (generate_all_workers_provenance three_nodes).
  vm_compute. right. left. reflexivity.
Defined.

(** *** Nodes that add nothing *)

Lemma set_has_in a visited : set_has a visited = true <-> In a visited.
Proof.
  unfold set_has. rewrite existsb_exists. split.
  - intros (x & Hx & E). apply String.eqb_eq in E. subst. exact Hx.
  - intros H. exists a. split; [exact H | apply String.eqb_refl].
Qed.

Lemma visit_visited d node a :
  In a (visited_address d) -> In a (visited_address (visit d node)).
Proof.
  intros H. unfold visit. destruct (Alive node); [|exact H].
  destruct (set_has _ _); [exact H|]. cbv zeta. cbn [visited_address]. right.
  destruct (dict_has "CPU"%string _); destruct (dict_has "GPU"%string _); exact H.
Qed.

Lemma visit_marks d node :
  Alive node = true -> In (NodeManagerAddress node) (visited_address (visit d node)).
Proof.
  intros Ea. unfold visit. rewrite Ea.
  destruct (set_has _ _) eqn:E.
  - apply set_has_in. exact E.
  - cbv zeta. cbn [visited_address]. left. reflexivity.
Qed.

Lemma discovery_visited nodes d a :
  In a (visited_address d) -> In a (visited_address (fold_left visit nodes d)).
Proof.
  revert d. induction nodes as [|node nodes IH]; intros d H; cbn [fold_left].
  - exact H.
  - apply IH. apply visit_visited. exact H.
Qed.

Lemma discovery_marks nodes d node :
  In node nodes -> Alive node = true ->
  In (NodeManagerAddress node) (visited_address (fold_left visit nodes d)).
Proof.
  revert d. induction nodes as [|n nodes IH]; intros d Hin Ea; [destruct Hin|].
  cbn [fold_left]. destruct Hin as [-> | Hin].
  - apply discovery_visited. apply visit_marks. exact Ea.
  - apply IH; assumption.
Qed.

Lemma visit_skip d node :
  Alive node = false \/ In (NodeManagerAddress node) (visited_address d) ->
  visit d node = d.
Proof.
  intros H. unfold visit. destruct (Alive node); [|reflexivity].
  destruct H as [H | H]; [discriminate H|].
  apply set_has_in in H. rewrite H. reflexivity.
Qed.

(** X3.  A node of [ray.nodes()] adds no worker and shifts no id when it
    is not alive, or when an alive node earlier in the list has its
    address: the result is the one for the list without it. *)
Theorem generate_all_workers_skips (before after : list Node) (node : Node) :
  Alive node = false
  \/ (exists earlier, In earlier before /\ Alive earlier = true
                      /\ NodeManagerAddress earlier = NodeManagerAddress node) ->
  generate_all_workers (before ++ node :: after)
  = generate_all_workers (before ++ after).
Proof.
  intros H. unfold generate_all_workers. rewrite !fold_left_app. cbn [fold_left].
  rewrite visit_skip; [reflexivity|].
  destruct H as [H | (earlier & Hin & Ee & Eaddr)]; [left; exact H|].
  right. rewrite <- Eaddr. apply discovery_marks; assumption.
Qed.

Lemma generate_all_workers_skips_witness :
  generate_all_workers three_nodes
  = generate_all_workers
      [mkNode true "10.0.0.1"%string
         [("CPU"%string, Float 8%float); ("GPU"%string, Float 1%float);
          ("memory"%string, Float 1024%float)];
       mkNode true "10.0.0.1"%string [("CPU"%string, Float 8%float)];
       mkNode true "10.0.0.3"%string [("CPU"%string, Float 2%float)]].
Proof.
  apply (generate_all_workers_skips
           [mkNode true "10.0.0.1"%string
              [("CPU"%string, Float 8%float); ("GPU"%string, Float 1%float);
               ("memory"%string, Float 1024%float)]]
           [mkNode true "10.0.0.1"%string [("CPU"%string, Float 8%float)];
            mkNode true "10.0.0.3"%string [("CPU"%string, Float 2%float)]]
           (mkNode false "10.0.0.2"%string [("CPU"%string, Float 4%float)])).
  left. reflexivity.
Defined.

(** *** Nodes that add workers *)

Lemma visit_visited_from d node a :
  In a (visited_address (visit d node)) ->
  In a (visited_address d) \/ (Alive node = true /\ a = NodeManagerAddress node).
Proof.
  unfold visit. destruct (Alive node); [|auto].
  destruct (set_has _ _); [auto|]. cbv zeta. cbn [visited_address].
  intros [<- | H]; [auto|]. left.
  destruct (dict_has "CPU"%string _); destruct (dict_has "GPU"%string _); exact H.
Qed.

Lemma discovery_visited_from nodes d a :
  In a (visited_address (fold_left visit nodes d)) ->
  In a (visited_address d)
  \/ exists node, In node nodes /\ Alive node = true /\ a = NodeManagerAddress node.
Proof.
  revert d. induction nodes as [|node nodes IH]; intros d H; cbn [fold_left] in H.
  - auto.
  - apply IH in H. destruct H as [H | (n & Hn & Ha & E)].
    + apply visit_visited_from in H. destruct H as [H | [Ha E]]; [auto|].
      right. exists node. split; [left; reflexivity | auto].
    + right. exists n. split; [right; exact Hn | auto].
Qed.

Lemma visit_keeps d node w : In w (found d) -> In w (found (visit d node)).
Proof.
  intros H. unfold visit. destruct (Alive node); [|exact H].
  destruct (set_has _ _); [exact H|]. cbv zeta. cbn [found].
  destruct (dict_has "CPU"%string _); destruct (dict_has "GPU"%string _);
    unfold add_worker; cbn [found]; repeat (apply in_or_app; left); exact H.
Qed.

Lemma discovery_keeps nodes d w :
  In w (found d) -> In w (found (fold_left visit nodes d)).
Proof.
  revert d. induction nodes as [|node nodes IH]; intros d H; cbn [fold_left].
  - exact H.
  - apply IH. apply visit_keeps. exact H.
Qed.

(** X4.  The first alive node of an address gets its workers: a CPU worker
    carrying its "CPU" amount when it lists "CPU", and a GPU worker
    carrying its "GPU" amount when it lists "GPU", both named after its
    address. *)
Theorem generate_all_workers_covers (before after : list Node) (node : Node) :
  Alive node = true ->
  (forall earlier, In earlier before -> Alive earlier = true ->
     NodeManagerAddress earlier <> NodeManagerAddress node) ->
  let name := String.append "node:"%string (NodeManagerAddress node) in
  let workers := generate_all_workers (before ++ node :: after) in
  (dict_has "CPU"%string (Resources node) = true ->
     exists i, In (Worker.mk i (dict_get_default "CPU"%string (Int 0) (Resources node))
                     (Int 0) name (Int 0) (Int 0)) workers)
  /\ (dict_has "GPU"%string (Resources node) = true ->
        exists i, In (Worker.mk i (Int 0)
                        (dict_get_default "GPU"%string (Int 0) (Resources node))
                        name (Int 0) (Int 0)) workers).
Proof.
  intros Ea Hfirst name workers.
  set (d := fold_left visit before (mkDiscovery [] [] 0)).
  assert (Hnew : set_has (NodeManagerAddress node) (visited_address d) = false).
  { destruct (set_has _ _) eqn:E; [|reflexivity]. exfalso.
    apply set_has_in in E. apply discovery_visited_from in E.
    destruct E as [[] | (n & Hn & Ha & E)].
    apply (Hfirst n Hn Ha). symmetry. exact E. }
  assert (Hw : forall w, In w (found (visit d node)) -> In w workers).
  { intros w Hin. unfold workers, generate_all_workers.
    rewrite fold_left_app. cbn [fold_left]. apply discovery_keeps. exact Hin. }
  assert (V : visit d node
              = let resource := Resources node in
                let d1 := if dict_has "CPU"%string resource
                          then add_worker (dict_get_default "CPU"%string (Int 0) resource)
                                 (Int 0) (NodeManagerAddress node) d
                          else d in
                let d2 := if dict_has "GPU"%string resource
                          then add_worker (Int 0)
                                 (dict_get_default "GPU"%string (Int 0) resource)
                                 (NodeManagerAddress node) d1
                          else d1 in
                mkDiscovery (NodeManagerAddress node :: visited_address d2)
                  (found d2) (index d2)).
  { unfold visit. rewrite Ea, Hnew. reflexivity. }
  cbv zeta in V. split; intros Hhas.
  - rewrite Hhas in V.
    exists (index d). apply Hw. rewrite V. cbn [found].
    destruct (dict_has "GPU"%string (Resources node)); unfold add_worker; cbn [found].
    + apply in_or_app. left. apply in_or_app. right. left. reflexivity.
    + apply in_or_app. right. left. reflexivity.
  - rewrite Hhas in V.
    eexists. apply Hw. rewrite V. cbn [found]. unfold add_worker at 1. cbn [found].
    apply in_or_app. right. left. reflexivity.
Qed.

Lemma generate_all_workers_covers_witness :
  exists i, In (Worker.mk i (Float 2%float) (Int 0) "node:10.0.0.3"%string
                  (Int 0) (Int 0))
               (generate_all_workers three_nodes).
Proof.
  apply (proj1 (generate_all_workers_covers
                  [mkNode true "10.0.0.1"%string
                     [("CPU"%string, Float 8%float); ("GPU"%string, Float 1%float);
                      ("memory"%string, Float 1024%float)];
                   mkNode false "10.0.0.2"%string [("CPU"%string, Float 4%float)];
                   mkNode true "10.0.0.1"%string [("CPU"%string, Float 8%float)]]
                  []
                  (mkNode true "10.0.0.3"%string [("CPU"%string, Float 2%float)])
                  eq_refl
                  (fun earlier Hin Ha =>
                     match Hin with
                     | or_introl E => ltac:(subst earlier; discriminate)
                     | or_intror (or_introl E) => ltac:(subst earlier; discriminate)
                     | or_intror (or_intror (or_introl E)) =>
                         ltac:(subst earlier; discriminate)
                     | or_intror (or_intror (or_intror F)) => match F with end
                     end))).
  reflexivity.
Defined.

(** ** The tuner's slowest CPU trial *)

(** X5.  [get_min_iteration_trial] raises (min of an empty list) exactly
    when no ledger entry is on a CPU worker; otherwise it returns the
    worker id and the trial id of the first CPU entry of the ledger whose
    iteration no CPU entry is below. *)
Theorem get_min_iteration_trial_spec (t : Tuner) :
  let entries := map snd (TrialResult.trial_progress (trial_result t)) in
  match get_min_iteration_trial t with
  | NoCpuTrial => forall e, In e entries -> worker_type e <> Some CPU
  | Target w i =>
      exists e,
        first_min iteration (filter on_cpu entries) e
        /\ In e entries
        /\ worker_type e = Some CPU
        /\ worker_id e = w /\ id e = i
        /\ forall e', In e' entries -> worker_type e' = Some CPU ->
             iteration e <= iteration e'
  end.
Proof.
  cbv zeta. unfold get_min_iteration_trial.
  set (entries := map snd (TrialResult.trial_progress (trial_result t))).
  assert (Cpu : forall e, on_cpu e = true <-> worker_type e = Some CPU).
  { intros e. unfold on_cpu. destruct (worker_type e) as [[|]|]; split; congruence. }
  destruct (Py.min iteration (filter on_cpu entries)) as [target|] eqn:E.
  - apply min_spec in E. exists target.
    pose proof (first_min_in _ _ _ E) as Hin. apply filter_In in Hin.
    destruct Hin as [Hin Hc].
    split; [exact E|]. split; [exact Hin|]. split; [apply Cpu; exact Hc|].
    split; [reflexivity|]. split; [reflexivity|].
    intros e' He' Hc'. apply (first_min_le _ _ _ _ E).
    apply filter_In. split; [exact He' | apply Cpu; exact Hc'].
  - apply min_none in E. intros e He Hc.
    assert (Hin : In e (filter on_cpu entries))
      by (apply filter_In; split; [exact He | apply Cpu; exact Hc]).
    rewrite E in Hin. destruct Hin.
Qed.

(** ** A new scheduler *)

Lemma filter_interleaving {A} (f g : A -> bool) (l : list A) :
  (forall a, g a = negb (f a)) ->
  interleaving (filter f l) (filter g l) l.
Proof.
  intros H. induction l as [|a l IH]; cbn [filter]; [constructor|].
  rewrite H. destruct (f a); cbn [negb]; constructor; exact IH.
Qed.

(** X6.  [TrialScheduler.__init__] splits [workers] into [gpu_workers]
    and [cpu_workers] by the type each worker answers, keeping the order
    of [workers]: [workers] is the two lists interleaved, every worker of
    [gpu_workers] answers GPU and every worker of [cpu_workers] answers
    CPU.  With nothing completed yet, the new scheduler selects round-robin
    exactly when the population has at least three trials for each GPU
    worker. *)
Theorem init_sorts_workers tuner phase worker_type workers trial_states population :
  let s := init tuner phase worker_type workers trial_states population in
  interleaving (gpu_workers s) (cpu_workers s) workers
  /\ Forall (fun w => worker_type w = GPU) (gpu_workers s)
  /\ Forall (fun w => worker_type w = CPU) (cpu_workers s)
  /\ (selected_strategy s = RoundRobin
      <-> 3 * Py.len (gpu_workers s) <= Py.len trial_states).
Proof.
  cbv zeta. split; [|split; [|split]].
  - apply filter_interleaving. intros a. destruct (worker_type a); reflexivity.
  - apply Forall_forall. intros w Hw. apply filter_In in Hw. destruct Hw as [_ Hw].
    destruct (worker_type w); first [reflexivity | discriminate Hw].
  - apply Forall_forall. intros w Hw. apply filter_In in Hw. destruct Hw as [_ Hw].
    destruct (worker_type w); first [reflexivity | discriminate Hw].
  - destruct (selected_strategy_spec
                (init tuner phase worker_type workers trial_states population))
      as [[H1 H2] _].
    cbn [completed_trial_states trial_state_nums init] in H1, H2.
    unfold Py.len at 1 in H1. unfold Py.len at 1 in H2. cbn [length] in H1, H2.
    split; intros H; [apply H1 in H; lia | apply H2; lia].
Qed.

(** ** gpu-first with trials pending *)

Lemma truthy_len_nonempty {A} (l : list A) : l <> [] -> Py.truthy (Py.len l) = true.
Proof. destruct l; [congruence | reflexivity]. Qed.

(** X7.  When some GPU worker has a free slot and the pending queue is not
    empty, [gpu_first_strategy] asks only the GPU workers for their slots,
    takes the first pending trial of least iteration out of the queue,
    assigns it to the first GPU worker with the most free slots, and
    returns the fresh handle of that assignment. *)
Theorem gpu_first_assigns env gpus cpus s :
  filter (has_free_slot env) gpus <> [] ->
  pending_trial_states s <> [] ->
  let r := gpu_first_strategy env gpus cpus s in
  exists w t,
    first_max (available_slots env) (filter (has_free_slot env) gpus) w
    /\ first_min (fun l => iteration (obj s l)) (pending_trial_states s) t
    /\ taken t (pending_trial_states s) (pending_trial_states (snd r))
    /\ fst r = Some (next_ref s)
    /\ next_ref (snd r) = S (next_ref s)
    /\ events (snd r) = events s ++ map GetAvailableSlots gpus
                          ++ [AssignTrial w (obj s t) (next_ref s)].
Proof.
  intros Hg Hp r.
  pose proof (gpu_first_unfold env gpus cpus s) as R. fold r in R. cbv zeta in R.
  rewrite (truthy_len_nonempty _ Hp) in R.
  destruct (filter (has_free_slot env) gpus) as [|g gs] eqn:Eg; [congruence|].
  rewrite assign_to_gpu_unfold in R.
  change (pending_trial_states (trace (map GetAvailableSlots gpus) s))
    with (pending_trial_states s) in R.
  destruct (Py.max snd _) as [wn|] eqn:Emax; [|discriminate Emax].
  destruct (Py.min _ (pending_trial_states s)) as [t|] eqn:Emin.
  - apply max_spec in Emax. apply first_max_map in Emax.
    destruct Emax as (w & -> & Hw). cbn [snd] in Hw.
    apply min_spec in Emin.
    exists w, t. split; [exact Hw|]. split; [exact Emin|].
    rewrite R. cbn [fst snd]. rewrite pending_assigned, events_assigned.
    split; [apply remove_taken; eapply first_min_in; exact Emin|].
    split; [reflexivity|]. split; [reflexivity|].
    unfold trace; cbn. rewrite <- app_assoc. reflexivity.
  - apply min_none in Emin. contradiction.
Qed.

Lemma gpu_first_assigns_witness :
  exists w t,
    first_min (fun l => iteration (obj late l)) (pending_trial_states late) t
    /\ events (snd (gpu_first_strategy all_free [0%nat] [1%nat] late))
       = [GetAvailableSlots 0%nat; AssignTrial w (obj late t) 0%nat].
Proof.
  destruct (gpu_first_assigns all_free [0%nat] [1%nat] late)
    as (w & t & _ & Hmin & _ & _ & _ & He).
  - vm_compute. discriminate.
  - vm_compute. discriminate.
  - exists w, t. split; [exact Hmin | exact He].
Defined.

(** ** The phase broadcast *)

Lemma for_each_emit (f : ActorHandle -> Event) ws s :
  snd (for_each (fun w => emit (f w)) ws s) = trace (map f ws) s.
Proof.
  revert s. induction ws as [|w ws IH]; intros s; cbn [for_each map].
  - rewrite trace_nil. reflexivity.
  - rewrite bind_emit. unfold bind at 1. cbn [snd ret]. rewrite IH, trace_app.
    reflexivity.
Qed.

Lemma update_phase_unfold s :
  snd (update_phase s)
  = let s1 := set_trial_phase
                (TrialPhase.update_phase
                   (map iteration (remote_get_trial_progress (tuner s)))
                   (trial_phase s))
                (trace [GetTrialProgress] s) in
    let new := TrialPhase.current_phase (trial_phase s1) in
    if TrialPhase.current_phase (trial_phase s) =? new then s1
    else trace (Log INFO (MsgPhaseUpdated new)
                :: map (fun w => UpdatePhase w new) (workers s)) s1.
Proof.
  unfold update_phase.
  rewrite bind_gets, bind_emit, bind_gets, bind_modify, bind_gets. cbv zeta.
  change (tuner (trace [GetTrialProgress] s)) with (tuner s).
  change (trial_phase (trace [GetTrialProgress] s)) with (trial_phase s).
  set (s1 := set_trial_phase _ (trace [GetTrialProgress] s)).
  destruct (TrialPhase.current_phase (trial_phase s)
            =? TrialPhase.current_phase (trial_phase s1)).
  - reflexivity.
  - rewrite bind_emit, bind_gets. unfold bind at 1. cbn [snd ret].
    rewrite for_each_emit, (trace_app [_]). reflexivity.
Qed.

Lemma iteration_serialize (t : Tuner) (o : TrialState loc) :
  iteration (serialize t o) = iteration o.
Proof. reflexivity. Qed.

(** X8.  [update_phase] asks the tuner for the progress and hands it to
    [TrialPhase.update_phase]: the new phase is the one that the
    iterations of the ledger's entries give from the old one.  When its
    number is the one it was, nothing else happens; when it has changed,
    the change is logged and every worker of [workers] is sent the new
    number once, in order.  Queues, handles, objects and tuner are left
    alone. *)
Theorem update_phase_broadcast s :
  let s' := snd (update_phase s) in
  let old := TrialPhase.current_phase (trial_phase s) in
  let new := TrialPhase.current_phase (trial_phase s') in
  trial_phase s'
  = TrialPhase.update_phase
      (map (fun e => iteration (snd e))
           (TrialResult.trial_progress (trial_result (tuner s))))
      (trial_phase s)
  /\ (new = old -> events s' = events s ++ [GetTrialProgress])
  /\ (new <> old ->
        events s' = events s
                    ++ [GetTrialProgress; Log INFO (MsgPhaseUpdated new)]
                    ++ map (fun w => UpdatePhase w new) (workers s))
  /\ pending_trial_states s' = pending_trial_states s
  /\ completed_trial_states s' = completed_trial_states s
  /\ running_futures s' = running_futures s
  /\ objects s' = objects s
  /\ tuner s' = tuner s
  /\ workers s' = workers s.
Proof.
  cbv zeta. rewrite update_phase_unfold. cbv zeta.
  assert (I : map iteration (remote_get_trial_progress (tuner s))
              = map (fun e => iteration (snd e))
                    (TrialResult.trial_progress (trial_result (tuner s)))).
  { unfold remote_get_trial_progress, get_trial_progress,
      TrialResult.get_trial_progress.
    rewrite !map_map. apply map_ext. intros e. apply iteration_serialize. }
  rewrite I.
  set (s1 := set_trial_phase _ (trace [GetTrialProgress] s)).
  destruct (Z.eqb_spec (TrialPhase.current_phase (trial_phase s))
              (TrialPhase.current_phase (trial_phase s1))) as [E | E].
  - split; [reflexivity|]. split; [reflexivity|]. split; [congruence|].
    repeat split; reflexivity.
  - change (trial_phase (trace ?l s1)) with (trial_phase s1).
    split; [reflexivity|]. split; [congruence|]. split.
    + intros _. unfold trace. cbn. rewrite <- !app_assoc. reflexivity.
    + repeat split; reflexivity.
Qed.

Lemma update_phase_broadcast_witness :
  TrialPhase.current_phase (trial_phase (snd (update_phase advanced))) = 1
  /\ events (snd (update_phase advanced))
     = [GetTrialProgress; Log INFO (MsgPhaseUpdated 1);
        UpdatePhase 0%nat 1; UpdatePhase 1%nat 1].
Proof.
  destruct (update_phase_broadcast advanced) as (Hp & _ & Hb & _).
  split.
  - rewrite Hp. vm_compute. reflexivity.
  - rewrite Hb; [vm_compute; reflexivity | vm_compute; discriminate].
Defined.

(** ** Handles that fail *)

(** X9.  A completion handle that resolves to an error is logged at error
    level and dropped: no queue, handle, object or tuner entry changes. *)
Theorem failed_handle_is_logged env future e s :
  resolve env future = Py.Raised e ->
  handle_done_future env future s
  = (tt, trace [Log ERROR (MsgFutureFailed e)] s).
Proof.
  intros H. apply handle_done_future_raised.
  apply handle_done_try_unresolved. exact H.
Qed.

Lemma failed_handle_is_logged_witness :
  handle_done_future (answers (Py.Raised (Py.RayTaskError 1))) 0%nat early
  = (tt, trace [Log ERROR (MsgFutureFailed (Py.RayTaskError 1))] early).
Proof.
  apply (failed_handle_is_logged (answers (Py.Raised (Py.RayTaskError 1)))).
  reflexivity.
Defined.

Lemma mutation_without_donor draw ts t :
  snd (get_quantile_trial t) = [] ->
  mutation draw ts t
  = (Py.Raised Py.IndexError,
     tuner_info (MutationBegins (id ts) (hp_at t (hyperparameter ts))) t).
Proof.
  intros E. unfold mutation. cbv zeta.
  change (get_quantile_trial (tuner_info ?e t)) with (get_quantile_trial t).
  destruct (get_quantile_trial t) as [lower upper]. cbn [snd] in E. subst upper.
  unfold Py.random_choice. destruct (draw mod length (@nil (TrialState loc)))%nat;
    reflexivity.
Qed.

(** X10.  When the upper quantile list is empty, [mutation] raises
    IndexError before it writes anything: the ledger and every
    hyperparameter object are as they were, and only the opening log
    record has been added. *)
Theorem mutation_without_donor_raises draw ts t :
  snd (get_quantile_trial t) = [] ->
  fst (mutation draw ts t) = Py.Raised Py.IndexError
  /\ trial_result (snd (mutation draw ts t)) = trial_result t
  /\ hyperparameters (snd (mutation draw ts t)) = hyperparameters t
  /\ tuner_log (snd (mutation draw ts t))
     = tuner_log t ++ [MutationBegins (id ts) (hp_at t (hyperparameter ts))].
Proof.
  intros E. rewrite (mutation_without_donor draw ts t E). repeat split.
Qed.

Lemma mutation_without_donor_raises_witness :
  fst (mutation 0 (set_hyperparameter 0%nat (trial 0 2 0.1%float NEED_MUTATION))
         (mkTuner (TrialResult.mk []) [hp0] []))
  = Py.Raised Py.IndexError.
Proof.
  apply (mutation_without_donor_raises 0
           (set_hyperparameter 0%nat (trial 0 2 0.1%float NEED_MUTATION))
           (mkTuner (TrialResult.mk []) [hp0] [])).
  reflexivity.
Defined.

Lemma remote_mutation_without_donor draw v t :
  snd (get_quantile_trial t) = [] ->
  fst (remote_mutation draw v t) = Py.Raised Py.IndexError
  /\ trial_result (snd (remote_mutation draw v t)) = trial_result t.
Proof.
  intros E. unfold remote_mutation, deserialize.
  destruct (Store.alloc (hyperparameter v) (hyperparameters t)) as [l h].
  rewrite mutation_without_donor by exact E. split; reflexivity.
Qed.

(** X11.  A handle that resolves to a trial with status NEED_MUTATION
    while the tuner has no donor to choose loses the trial: the IndexError
    of [mutation] is caught and logged, the trial joins neither queue, and
    the tuner is not told to record it. *)
Theorem failed_mutation_loses_the_trial env future v s :
  resolve env future = Py.Ok v -> status v = NEED_MUTATION ->
  snd (get_quantile_trial (tuner s)) = [] ->
  let s' := snd (handle_done_future env future s) in
  pending_trial_states s' = pending_trial_states s
  /\ completed_trial_states s' = completed_trial_states s
  /\ running_futures s' = running_futures s
  /\ TrialResult.trial_progress (trial_result (tuner s'))
     = TrialResult.trial_progress (trial_result (tuner s))
  /\ events s' = events s ++ [Mutation v; Log ERROR (MsgFutureFailed Py.IndexError)].
Proof.
  intros Hres Hst Hup s'.
  pose proof (route_need_mutation env v (objects s)
                (set_objects (objects s ++ [v]) s) eq_refl Hst) as Hr.
  cbv zeta in Hr. change (tuner (set_objects ?o s)) with (tuner s) in Hr.
  destruct (remote_mutation_without_donor (draw env) v (tuner s) Hup) as [Ef Et].
  rewrite Ef in Hr.
  pose proof (handle_done_try_raised env future v s _ _ Hres Hr) as Ht.
  unfold s'. rewrite (handle_done_future_raised _ _ _ _ _ Ht). cbn [snd].
  repeat split; try reflexivity.
  - transitivity (TrialResult.trial_progress
                    (trial_result (snd (remote_mutation (draw env) v (tuner s)))));
      [reflexivity | rewrite Et; reflexivity].
  - unfold trace. cbn [events set_events set_tuner set_objects].
    rewrite <- app_assoc. reflexivity.
Qed.

Lemma failed_mutation_loses_the_trial_witness :
  pending_trial_states
    (snd (handle_done_future (answers (Py.Ok (trial 0 2 0.1%float NEED_MUTATION)))
            0%nat (set_tuner (mkTuner (TrialResult.mk []) [] []) early)))
  = [0; 1; 2; 3]%nat.
Proof.
  apply (failed_mutation_loses_the_trial
           (answers (Py.Ok (trial 0 2 0.1%float NEED_MUTATION))) 0%nat
           (trial 0 2 0.1%float NEED_MUTATION)
           (set_tuner (mkTuner (TrialResult.mk []) [] []) early));
    reflexivity.
Defined.

(** ** What completions do to the queues *)

Lemma queues_grow_refl s : queues_grow_by 0 s s.
Proof.
  exists [], []. rewrite !app_nil_r. repeat split; reflexivity.
Qed.

Lemma queues_grow_more n m s s' :
  (n <= m)%nat -> queues_grow_by n s s' -> queues_grow_by m s s'.
Proof.
  intros Hle (lp & lc & Hp & Hc & Hn & Hr). exists lp, lc. repeat split; auto. lia.
Qed.

Lemma queues_grow_trans n m s1 s2 s3 :
  queues_grow_by n s1 s2 -> queues_grow_by m s2 s3 -> queues_grow_by (n + m) s1 s3.
Proof.
  intros (lp1 & lc1 & Hp1 & Hc1 & Hn1 & Hr1) (lp2 & lc2 & Hp2 & Hc2 & Hn2 & Hr2).
  exists (lp1 ++ lp2), (lc1 ++ lc2).
  rewrite Hp2, Hp1, Hc2, Hc1, Hr2, Hr1, <- !app_assoc, !length_app.
  repeat split; auto. lia.
Qed.

Lemma handle_done_future_grows env future s :
  queues_grow_by 1 s (snd (handle_done_future env future s)).
Proof.
  destruct (resolve env future) as [v | e] eqn:Hres.
  - set (s0 := set_objects (objects s ++ [v]) s).
    assert (E0 : objects s0 = objects s ++ [v]) by reflexivity.
    destruct (status v) eqn:Hst.
    + pose proof (route_pending env v (objects s) s0 E0 Hst) as Hr.
      rewrite (handle_done_try_routed env future v s _ _ v (objects s) Hres Hr
                 eq_refl eq_refl).
      exists [length (objects s)], []. rewrite app_nil_r. repeat split; auto.
    + pose proof (route_running env v (objects s) s0 E0 Hst) as Hr.
      rewrite (handle_done_try_routed env future v s _ _ v (objects s) Hres Hr
                 eq_refl eq_refl).
      exists [], []. rewrite !app_nil_r. repeat split; auto.
    + pose proof (route_pause env v (objects s) s0 E0 Hst) as Hr.
      rewrite (handle_done_try_routed env future v s _ _ (set_status PENDING v)
                 (objects s) Hres Hr eq_refl eq_refl).
      exists [length (objects s)], []. rewrite app_nil_r. repeat split; auto.
    + pose proof (route_need_mutation env v (objects s) s0 E0 Hst) as Hr.
      cbv zeta in Hr.
      destruct (fst (remote_mutation (draw env) v (tuner s0))) as [m | e].
      * rewrite (handle_done_try_routed env future v s _ _ (set_status PENDING m)
                   (objects s ++ [v]) Hres Hr eq_refl (eq_sym (length_snoc _ _))).
        exists [S (length (objects s))], []. rewrite app_nil_r. repeat split; auto.
      * rewrite (handle_done_future_raised _ _ _ _ _
                   (handle_done_try_raised env future v s _ _ Hres Hr)).
        exists [], []. rewrite !app_nil_r. repeat split; auto.
    + destruct (route_terminate env v (objects s) s0 E0 Hst) as (ids & Hr).
      rewrite (handle_done_try_routed env future v s _ _ v (objects s) Hres Hr
                 eq_refl eq_refl).
      exists [], [length (objects s)]. rewrite app_nil_r. repeat split; auto.
  - rewrite (handle_done_future_raised _ _ _ _ _
               (handle_done_try_unresolved env future s e Hres)).
    exists [], []. rewrite !app_nil_r. repeat split; auto.
Qed.

Lemma for_each_grows env (futures : list ObjectRef) s :
  queues_grow_by (length futures)
    s (snd (for_each (handle_done_future env) futures s)).
Proof.
  revert s. induction futures as [|f futures IH]; intros s; cbn [for_each length].
  - apply queues_grow_refl.
  - unfold bind at 1. cbv zeta. unfold bind at 1. cbn [snd ret].
    change (S (length futures)) with (1 + length futures)%nat.
    eapply queues_grow_trans; [apply handle_done_future_grows | apply IH].
Qed.

(** X12.  [handle_done_futures] never takes a trial off a queue and never
    touches the handles in flight: the pending queue and the completed
    list are extended at their ends, by at most one trial per handle in
    all. *)
Theorem handle_done_futures_only_appends env done_futures s :
  queues_grow_by (length done_futures) s (snd (handle_done_futures env done_futures s)).
Proof.
  unfold handle_done_futures. unfold bind. cbn [snd ret]. apply for_each_grows.
Qed.

(** ** Runs that have nothing to do, and runs that get nowhere *)

(** X13.  When the completed list already holds the whole population (an
    empty population included), [run] makes no tick: it logs the start,
    prints the iteration counts, logs the end and returns, whatever the
    cluster would answer. *)
Theorem run_of_a_finished_population envs s :
  trial_state_nums s <= Py.len (completed_trial_states s) ->
  run envs s
  = (Some tt, trace [Log INFO MsgTrainingStarts;
                     PrintIterationCount (iteration_counts s);
                     Log INFO MsgAllTrialsDone] s).
Proof.
  intros H. rewrite run_unfold. cbv zeta.
  assert (L : run_loop envs (trace [Log INFO MsgTrainingStarts] s)
              = (ConditionFalse, trace [Log INFO MsgTrainingStarts] s)).
  { destruct envs; cbn [run_loop]; rewrite bind_gets;
      change (completed_trial_states (trace ?l s)) with (completed_trial_states s);
      change (trial_state_nums (trace ?l s)) with (trial_state_nums s);
      replace (Py.len (completed_trial_states s) <? trial_state_nums s) with false
        by (symmetry; apply Z.ltb_ge; exact H); reflexivity. }
  rewrite L. cbn [fst snd]. rewrite trace_app. reflexivity.
Qed.

Lemma run_of_a_finished_population_witness :
  run [all_free] (scheduler_of [0%nat] [1%nat] [])
  = (Some tt, trace [Log INFO MsgTrainingStarts; PrintIterationCount [];
                     Log INFO MsgAllTrialsDone] (scheduler_of [0%nat] [1%nat] [])).
Proof.
  apply (run_of_a_finished_population [all_free] (scheduler_of [0%nat] [1%nat] [])).
  vm_compute. discriminate.
Defined.

Lemma same_completed_refl s : same_completed s s.
Proof. reflexivity. Qed.

Lemma same_completed_trans s1 s2 s3 :
  same_completed s1 s2 -> same_completed s2 s3 -> same_completed s1 s3.
Proof. unfold same_completed. congruence. Qed.

Ltac unfinished :=
  walk same_completed_refl same_completed_trans
    ltac:(apply respects_modify; intros ?; reflexivity).

(** Dispatching completes nothing. *)
Lemma assign_same_completed env : respects same_completed (assign_trial_to_worker env).
Proof.
  unfold assign_trial_to_worker, update_phase, log_pending, keep,
    round_robin_strategy, gpu_first_strategy, assign_to_gpu, get_available_slots,
    get_active_trials, send_signal, assign_trial, emit.
  unfinished.
Qed.

Lemma ray_wait_nothing env : ray_wait env [] = ([], []).
Proof.
  unfold ray_wait. destruct (ready env) as [i|]; [destruct i|]; reflexivity.
Qed.

(** A tick that dispatches gpu-first with no handle in flight. *)
Lemma starved_tick env s :
  selected_strategy s = GpuFirst -> running_futures s = [] ->
  running_futures (snd (tick env s)) = []
  /\ completed_trial_states (snd (tick env s)) = completed_trial_states s.
Proof.
  intros Sel Hr.
  pose proof (gpu_first_tick_keeps_nothing env s Sel) as Hk. rewrite Hr in Hk.
  pose proof (assign_same_completed env s) as Hc. unfold same_completed in Hc.
  set (s1 := snd (assign_trial_to_worker env s)) in *.
  assert (U : tick env s
              = if is_empty (pending_trial_states s1) then (true, s1)
                else (false, set_running [] s1)).
  { unfold tick. unfold bind at 1. cbv zeta. rewrite bind_gets. fold s1.
    rewrite Hk, ray_wait_nothing. cbn [is_empty andb fst snd].
    destruct (is_empty (pending_trial_states s1)); reflexivity. }
  rewrite U. destruct (is_empty (pending_trial_states s1)); cbn [snd]; auto.
Qed.

(** From a tick that selects gpu-first with no handle in flight. *)
Lemma idle_gpu_first_stays_idle s s' :
  selected_strategy s = GpuFirst -> running_futures s = [] ->
  later s s' ->
  running_futures s' = []
  /\ completed_trial_states s' = completed_trial_states s.
Proof.
  intros Sel Hr L. induction L as [|env s' L IH].
  - auto.
  - destruct IH as [Hr' Hc'].
    assert (Sel' : selected_strategy s' = GpuFirst)
      by (eapply gpu_first_stays; [apply later_grows; exact L | exact Sel]).
    destruct (starved_tick env s' Sel' Hr') as [H1 H2].
    split; [exact H1 | congruence].
Qed.

(** X14.  Once a tick selects gpu-first while no handle is in flight, the
    scheduler learns of no further completion: gpu-first never keeps the
    handle of an assignment, so after any number of further ticks
    [running_futures] is still empty and the completed list is what it
    was. *)
Theorem gpu_first_from_idle_completes_nothing s s' :
  selected_strategy s = GpuFirst -> running_futures s = [] ->
  later s s' ->
  running_futures s' = []
  /\ completed_trial_states s' = completed_trial_states s.
Proof. apply idle_gpu_first_stays_idle. Qed.

Lemma gpu_first_from_idle_witness :
  running_futures (snd (tick all_free (snd (tick all_free late)))) = []
  /\ completed_trial_states (snd (tick all_free (snd (tick all_free late)))) = [].
Proof.
  apply (gpu_first_from_idle_completes_nothing late); try reflexivity.
  do 2 apply later_tick. apply later_now.
Defined.

Lemma later_trans s1 s2 s3 : later s1 s2 -> later s2 s3 -> later s1 s3.
Proof.
  intros L12 L23. induction L23 as [|env s3 _ IH]; [exact L12|].
  apply later_tick. exact IH.
Qed.

Lemma run_loop_later envs s : later s (snd (run_loop envs s)).
Proof.
  revert s. induction envs as [|env envs IH]; intros s; cbn [run_loop];
    rewrite bind_gets;
    destruct (Py.len (completed_trial_states s) <? trial_state_nums s);
    try apply later_now.
  assert (U : (broke <- tick env ;;
               if (broke : bool) then ret Break else run_loop envs) s
              = if fst (tick env s) then (Break, snd (tick env s))
                else run_loop envs (snd (tick env s))).
  { unfold bind. destruct (fst (tick env s)); reflexivity. }
  rewrite U. destruct (fst (tick env s)); cbn [snd].
  - apply later_tick. apply later_now.
  - eapply later_trans; [apply later_tick; apply later_now | apply IH].
Qed.

(** X15.  A new scheduler whose population is smaller than three times
    the number of its GPU workers selects gpu-first from the first tick,
    and its [run] never completes a trial: whenever [run] is looked at,
    returned or not, the completed list and [running_futures] are
    empty. *)
Theorem small_population_never_completes
    tuner phase worker_type workers trial_states population envs :
  let s := init tuner phase worker_type workers trial_states population in
  Py.len trial_states < 3 * Py.len (gpu_workers s) ->
  selected_strategy s = GpuFirst
  /\ completed_trial_states (snd (run envs s)) = []
  /\ running_futures (snd (run envs s)) = [].
Proof.
  intros s Hsmall.
  assert (Sel : selected_strategy s = GpuFirst).
  { apply selected_strategy_spec. cbn [completed_trial_states trial_state_nums s init].
    unfold Py.len at 1. cbn [length]. lia. }
  split; [exact Sel|].
  set (s0 := trace [Log INFO MsgTrainingStarts] s).
  assert (L : later s0 (snd (run_loop envs s0))) by apply run_loop_later.
  destruct (idle_gpu_first_stays_idle s0 _ Sel eq_refl L) as [Hr Hc].
  rewrite run_unfold. cbv zeta. fold s0.
  destruct (fst (run_loop envs s0)); cbn [snd];
    split; first [exact Hc | exact Hr].
Qed.

Lemma small_population_witness :
  completed_trial_states (snd (run [all_free; all_free] late)) = [].
Proof.
  apply (small_population_never_completes (tuner_of population2) (TrialPhase.mk 4 2 0)
           gpu_is_0 [0%nat; 1%nat] [0%nat; 1%nat] population2 [all_free; all_free]).
  vm_compute. reflexivity.
Defined.

(** ** What a mutation leaves alone *)

Lemma read_write_other {A} (d v : A) (h : list A) (l l' : loc) :
  l <> l' -> Store.read d (Store.write l' v h) l = Store.read d h l.
Proof.
  revert l l'. induction h as [|x h IH]; intros l l' Hne.
  - destruct l'; reflexivity.
  - destruct l' as [|l']; destruct l as [|l]; cbn; try reflexivity; try congruence.
    apply IH. congruence.
Qed.

Lemma random_choice_in {A} (draw : nat) (l : list A) (x : A) :
  Py.random_choice draw l = Py.Ok x -> In x l.
Proof.
  unfold Py.random_choice.
  destruct (nth_error l (draw mod length l)) as [y|] eqn:E; [|discriminate].
  intros [= <-]. eapply nth_error_In. exact E.
Qed.

(** X16.  A [mutation] that returns has changed nothing but the [lr] and
    [momentum] of one hyperparameter object, that of a donor from the upper
    list: the ledger, every other hyperparameter object and the donor
    object's [batch_size] and [model_type] are as before, and the trial
    returned differs from the argument in [hyperparameter] and
    [checkpoint] only. *)
Theorem mutation_frame (draw : nat) (ts ts' : TrialState loc) (t t' : Tuner) :
  mutation draw ts t = (Py.Ok ts', t') ->
  exists donor,
    In donor (snd (get_quantile_trial t))
    /\ hyperparameter ts' = hyperparameter donor
    /\ trial_result t' = trial_result t
    /\ length (hyperparameters t') = length (hyperparameters t)
    /\ (forall l, l <> hyperparameter donor -> hp_at t' l = hp_at t l)
    /\ batch_size (hp_at t' (hyperparameter donor))
       = batch_size (hp_at t (hyperparameter donor))
    /\ model_type (hp_at t' (hyperparameter donor))
       = model_type (hp_at t (hyperparameter donor))
    /\ (id ts', iteration ts', stop_iteration ts', phase ts', accuracy ts')
       = (id ts, iteration ts, stop_iteration ts, phase ts, accuracy ts)
    /\ (status ts', worker_id ts', worker_type ts', device_iteration_count ts')
       = (status ts, worker_id ts, worker_type ts, device_iteration_count ts).
Proof.
  intros E.
  destruct (Py.random_choice draw (snd (get_quantile_trial t))) as [donor|e] eqn:C.
  - pose proof (mutation_unfold draw ts t donor C) as U. cbv zeta in U.
    rewrite U in E. injection E as <- <-.
    exists donor. split; [eapply random_choice_in; exact C|].
    split; [reflexivity|]. split; [reflexivity|].
    unfold hp_at, hp_write, tuner_info. cbn [hyperparameters trial_result tuner_log].
    set (h := hyperparameters t). set (l := hyperparameter donor).
    split; [rewrite !write_length; reflexivity|].
    split; [intros l0 Hne; rewrite !read_write_other by exact Hne; reflexivity|].
    destruct (Nat.lt_ge_cases l (length h)) as [Hl | Hl].
    + rewrite (read_write_same _ _ _ l) by (rewrite write_length; exact Hl).
      rewrite (read_write_same _ _ _ l) by exact Hl.
      repeat split; reflexivity.
    + rewrite !(write_out_of_range _ _ l) by (rewrite ?write_length; exact Hl).
      repeat split; reflexivity.
  - exfalso. unfold mutation in E. cbv zeta in E.
    change (get_quantile_trial (tuner_info ?e t)) with (get_quantile_trial t) in E.
    destruct (get_quantile_trial t) as [lower upper]. cbn [snd] in C.
    rewrite C in E. discriminate.
Qed.

Lemma mutation_frame_witness :
  exists donor,
    In donor (snd (get_quantile_trial ledger4)) /\ id donor = 1.
Proof.
  destruct (mutation_frame 0 returned0
              (match fst (mutation 0 returned0 ledger4) with
               | Py.Ok ts' => ts'
               | Py.Raised _ => returned0
               end)
              ledger4 (snd (mutation 0 returned0 ledger4)))
    as (donor & Hin & _).
  - vm_compute. reflexivity.
  - exists donor. split; [exact Hin|].
    vm_compute in Hin. destruct Hin as [<- | []]. reflexivity.
Defined.

(** ** Sorted listings *)

Lemma insert_perm {A K} (ltb : K -> K -> bool) (key : A -> K) x l :
  Permutation (Py.insert ltb key x l) (x :: l).
Proof.
  induction l as [|y l IH]; cbn [Py.insert]; [reflexivity|].
  destruct (ltb (key x) (key y)); [reflexivity|].
  rewrite IH. apply perm_swap.
Qed.

Lemma sorted_perm {A K} (ltb : K -> K -> bool) (key : A -> K) l :
  Permutation (Py.sorted ltb key l) l.
Proof.
  unfold Py.sorted.
  assert (G : forall acc,
             Permutation (fold_left (fun acc x => Py.insert ltb key x acc) l acc)
                         (acc ++ l)).
  { induction l as [|x l IH]; intros acc; cbn [fold_left].
    - rewrite app_nil_r. reflexivity.
    - rewrite IH, insert_perm. apply Permutation_middle. }
  apply G.
Qed.

Lemma insert_ascending {A} (key : A -> Z) x l :
  ascending key l -> ascending key (Py.insert Z.ltb key x l).
Proof.
  unfold ascending. intros Hs. induction Hs as [|y l Hs IH Hy]; cbn [Py.insert].
  - repeat constructor.
  - destruct (key x <? key y) eqn:E.
    + apply Z.ltb_lt in E. constructor; [constructor; assumption|].
      constructor; [lia|]. rewrite Forall_forall in *. intros z Hz.
      specialize (Hy z Hz). cbv beta in Hy. lia.
    + apply Z.ltb_ge in E. constructor; [exact IH|].
      rewrite Forall_forall in *. intros z Hz.
      apply (Permutation_in _ (insert_perm Z.ltb key x l)) in Hz.
      destruct Hz as [<- | Hz]; [exact E | apply Hy; exact Hz].
Qed.

Lemma sorted_ascending {A} (key : A -> Z) l :
  ascending key (Py.sorted Z.ltb key l).
Proof.
  unfold Py.sorted.
  assert (G : forall acc, ascending key acc ->
             ascending key (fold_left (fun acc x => Py.insert Z.ltb key x acc) l acc)).
  { induction l as [|x l IH]; intros acc Ha; cbn [fold_left]; [exact Ha|].
    apply IH. apply insert_ascending. exact Ha. }
  apply G. constructor.
Qed.

(** X17.  Before it dispatches, [assign_trial_to_worker] logs the pending
    trials only when there are some: one INFO record carrying their number
    and the ids of all of them, each once, listed by non-decreasing
    iteration.  The queue itself is not reordered, and nothing else
    changes. *)
Theorem log_pending_lists_by_iteration (s : TrialScheduler) :
  match pending_trial_states s with
  | [] => log_pending s = (tt, s)
  | _ :: _ =>
      exists listed,
        Permutation listed (pending_trial_states s)
        /\ ascending (fun l => iteration (obj s l)) listed
        /\ log_pending s
           = (tt, trace [Log INFO (MsgPendingList (Py.len (pending_trial_states s))
                                     (map (fun l => id (obj s l)) listed))] s)
  end.
Proof.
  unfold log_pending. rewrite bind_gets.
  destruct (pending_trial_states s) as [|l0 q] eqn:E; [reflexivity|].
  exists (Py.sorted Z.ltb (fun l => iteration (obj s l)) (l0 :: q)).
  split; [apply sorted_perm|]. split; [apply sorted_ascending|].
  unfold Py.len. rewrite sorted_length. reflexivity.
Qed.

(** X18.  [print_iteration_count] reports one row per completed trial,
    its id with its CPU/GPU iteration counts, ordered by non-decreasing
    id, and changes nothing of the scheduler. *)
Theorem print_iteration_count_rows (s : TrialScheduler) :
  exists rows,
    Permutation rows
      (map (fun l => (id (obj s l), device_iteration_count (obj s l)))
           (completed_trial_states s))
    /\ ascending fst rows
    /\ print_iteration_count s = (tt, trace [PrintIterationCount rows] s).
Proof.
  exists (Py.sorted Z.ltb fst
            (map (fun l => (id (obj s l), device_iteration_count (obj s l)))
                 (completed_trial_states s))).
  split; [apply sorted_perm|]. split; [apply sorted_ascending|].
  unfold print_iteration_count. rewrite bind_gets. reflexivity.
Qed.

(** ** One dispatch per tick *)

Lemma assign_to_gpu_outcome av l s :
  dispatch_outcome s (assign_to_gpu av (trace l s)).
Proof.
  rewrite assign_to_gpu_unfold.
  change (pending_trial_states (trace l s)) with (pending_trial_states s).
  destruct (Py.max snd av) as [w|]; [|left; exists l; reflexivity].
  destruct (Py.min _ (pending_trial_states s)) as [t|] eqn:Emin;
    [|left; exists l; reflexivity].
  right. exists (fst w), t, l. split; [|reflexivity].
  apply min_spec in Emin. eapply first_min_in. exact Emin.
Qed.

Lemma round_robin_outcome env gpus cpus tp s :
  dispatch_outcome s (round_robin_strategy env gpus cpus tp s).
Proof.
  destruct (pending_trial_states s) as [|p ps] eqn:E.
  - left. exists []. rewrite trace_nil.
    unfold round_robin_strategy. rewrite bind_gets, E. reflexivity.
  - rewrite (round_robin_unfold env gpus cpus tp s p ps E). cbv zeta.
    clear E.
    assert (G : dispatch_outcome s
                  match filter (has_free_slot env) gpus with
                  | [] => (None, trace (map GetAvailableSlots gpus)
                                   (trace (map GetAvailableSlots cpus) s))
                  | _ :: _ =>
                      assign_to_gpu (map (fun w => (w, available_slots env w))
                                         (filter (has_free_slot env) gpus))
                        (trace (map GetAvailableSlots gpus)
                           (trace (map GetAvailableSlots cpus) s))
                  end).
    { rewrite trace_app. destruct (filter (has_free_slot env) gpus).
      - left. eexists. reflexivity.
      - apply assign_to_gpu_outcome. }
    destruct (filter (has_free_slot env) cpus) as [|w ws]; [exact G|].
    destruct (Py.max _ (filter (may_run_on_cpu tp s) (pending_trial_states s)))
      as [t|] eqn:Emax; [|exact G].
    right. exists w, t, (map GetAvailableSlots cpus). split; [|reflexivity].
    apply max_spec in Emax. apply first_max_in in Emax.
    apply filter_In in Emax. apply Emax.
Qed.

Lemma gpu_first_outcome env gpus cpus s :
  dispatch_outcome s (gpu_first_strategy env gpus cpus s).
Proof.
  rewrite gpu_first_unfold. cbv zeta.
  destruct (filter (has_free_slot env) gpus); [left; eexists; reflexivity|].
  destruct (Py.truthy (Py.len (pending_trial_states s)));
    [apply assign_to_gpu_outcome|].
  rewrite trace_app.
  destruct (Py.min (fun p => iteration (snd p))
              (running_cpu cpus (map (active_trials env) cpus)));
    [rewrite trace_app|]; left; eexists; reflexivity.
Qed.

(** X19.  One call of [assign_trial_to_worker] dispatches at most one
    trial and touches no trial object, the completed list or the tuner.
    Either the pending queue and [running_futures] are as before, or one
    pending trial has left the queue and a fresh handle was issued for it;
    that handle is appended to [running_futures] when round-robin was
    selected, and to nothing when gpu-first was. *)
Theorem assign_trial_to_worker_dispatches_at_most_one env s :
  let s' := snd (assign_trial_to_worker env s) in
  objects s' = objects s
  /\ completed_trial_states s' = completed_trial_states s
  /\ tuner s' = tuner s
  /\ ((pending_trial_states s' = pending_trial_states s
       /\ next_ref s' = next_ref s
       /\ running_futures s' = running_futures s)
      \/ (exists t,
            taken t (pending_trial_states s) (pending_trial_states s')
            /\ next_ref s' = S (next_ref s)
            /\ running_futures s'
               = running_futures s
                 ++ match selected_strategy s with
                    | RoundRobin => [next_ref s]
                    | GpuFirst => []
                    end)).
Proof.
  cbv zeta.
  pose proof (assign_trial_to_worker_dispatch env s) as D.
  unfold dispatches_with in D. cbv zeta in D. rewrite D. clear D.
  destruct (prelude_only_logs s) as (p & l & E).
  set (s1 := snd ((update_phase ;; log_pending) s)) in *.
  destruct (selected_strategy s).
  - set (r := round_robin_strategy env (gpu_workers s1) (cpu_workers s1)
                (trial_phase s1) s1).
    change ((future <- round_robin_strategy env (gpu_workers s1) (cpu_workers s1)
                         (trial_phase s1) ;; keep future) s1)
      with (keep (fst r) (snd r)).
    destruct (round_robin_outcome env (gpu_workers s1) (cpu_workers s1)
                (trial_phase s1) s1) as [(l' & Hr) | (w & t & l' & Hin & Hr)];
      fold r in Hr; rewrite Hr; cbn [fst snd keep ret modify]; rewrite E in *.
    + repeat split. left. repeat split.
    + repeat split. right. exists t. split; [|split; reflexivity].
      apply remove_taken. exact Hin.
  - set (r := gpu_first_strategy env (gpu_workers s1) (cpu_workers s1) s1).
    change ((gpu_first_strategy env (gpu_workers s1) (cpu_workers s1) ;;
             keep None) s1)
      with (keep None (snd r)).
    destruct (gpu_first_outcome env (gpu_workers s1) (cpu_workers s1) s1)
      as [(l' & Hr) | (w & t & l' & Hin & Hr)];
      fold r in Hr; rewrite Hr; cbn [fst snd keep ret]; rewrite E in *.
    + repeat split. left. repeat split.
    + repeat split. right. exists t. split; [|split; [reflexivity|]].
      * apply remove_taken. exact Hin.
      * rewrite app_nil_r. reflexivity.
Qed.
